(** * DorisAgent: the Node.js gateway client of doris-sga

    A shallow embedding of [examples/nodejs_agent_example.js]: the class
    [DorisAgent], its constructor and its eight asynchronous methods.

    - JavaScript values are the inductive [JsValue]; numbers are restricted
      to integers, strings are byte strings.
    - An [async] method is a computation over a [World]: the receiver object
      [this] and the list of HTTP requests put on the wire so far.  An awaited
      promise either rejects with a [JsError] or fulfils with a value.
    - axios, the gateway behind it and [fs.createReadStream] are not part of
      the repository: the gateway is a section variable [server] answering
      each request, [fs.createReadStream] a section variable as well, and
      axios is the small layer [settle] / [axios_request] between them.
      A stream carries whether its file can be opened; a form with a file
      that cannot, and data axios refuses, never reach the wire. *)

From Stdlib Require Import String Ascii List ZArith Bool Lia DecimalString.
Import ListNotations.

Local Open Scope string_scope.
Local Open Scope Z_scope.

(** ** JavaScript values *)

Module JS.

#[local] Set Warnings "-register-all".

Inductive JsValue : Type :=
| JUndefined
| JNull
| JBool (b : bool)
| JNum (n : Z)
| JStr (s : string)
| JArr (items : list JsValue)
| JObj (props : list (string * JsValue)).

(** What went wrong: a [TypeError] of the language; for axios, no reply
    ([NetworkFailure]), a reply outside 2xx ([BadStatus]) or data it refuses
    to send ([BadRequest]); a plain [Error] of a library or of the system,
    such as ENOENT ([PlainError]). *)
Inductive ErrorKind : Type :=
| TypeError
| NetworkFailure
| BadStatus (status : Z) (body : JsValue)
| BadRequest
| PlainError.

Record JsError : Type := mkError { err_kind : ErrorKind; err_message : string }.

(** ToBoolean. *)
Definition truthy (v : JsValue) : bool :=
  match v with
  | JUndefined | JNull => false
  | JBool b => b
  | JNum n => negb (n =? 0)
  | JStr s => negb (String.eqb s "")
  | JArr _ | JObj _ => true
  end.

(** [a || b]. *)
Definition js_or (a b : JsValue) : JsValue := if truthy a then a else b.

(** A default parameter [x = d]: the default replaces [undefined] only. *)
Definition default_param (x d : JsValue) : JsValue :=
  match x with
  | JUndefined => d
  | _ => x
  end.

(** [Number.isSafeInteger]: the integers a JavaScript number holds exactly. *)
Definition safe_integer (n : Z) : bool := Z.abs n <=? 2 ^ 53 - 1.

(** The string of an integer: what [Number.prototype.toString] gives for a
    safe integer (from 1e21 on a number prints with an exponent, and above
    2^53 not every integer is a number). *)
Definition decimal (n : Z) : string := NilZero.string_of_int (Z.to_int n).

Fixpoint join (sep : string) (l : list string) : string :=
  match l with
  | [] => ""
  | [x] => x
  | x :: rest => x ++ sep ++ join sep rest
  end.

(** The abstract operation ToString, as used by template literals. *)
Fixpoint ToString (v : JsValue) : string :=
  match v with
  | JUndefined => "undefined"
  | JNull => "null"
  | JBool true => "true"
  | JBool false => "false"
  | JNum n => decimal n
  | JStr s => s
  | JArr items =>
      join "," (map (fun x => match x with
                              | JUndefined | JNull => ""
                              | _ => ToString x
                              end) items)
  | JObj _ => "[object Object]"
  end.

(** The method call [v.toString()]: [null] and [undefined] have no methods. *)
Definition toString (v : JsValue) : JsError + string :=
  match v with
  | JUndefined =>
      inl (mkError TypeError "Cannot read properties of undefined (reading 'toString')")
  | JNull =>
      inl (mkError TypeError "Cannot read properties of null (reading 'toString')")
  | _ => inr (ToString v)
  end.

Fixpoint lookup (name : string) (props : list (string * JsValue)) : option JsValue :=
  match props with
  | [] => None
  | (k, v) :: rest => if String.eqb k name then Some v else lookup name rest
  end.

(** The assignment [obj.name = v] on a plain object: an existing property
    keeps its place, a new one goes last. *)
Fixpoint set_prop (props : list (string * JsValue)) (name : string) (v : JsValue)
  : list (string * JsValue) :=
  match props with
  | [] => [(name, v)]
  | (k, x) :: rest =>
      if String.eqb k name then (k, v) :: rest else (k, x) :: set_prop rest name v
  end.

Definition has_field (name : string) (props : list (string * JsValue)) : bool :=
  match lookup name props with
  | Some _ => true
  | None => false
  end.

(** The read [v.name] of a data property.  Only used with the gateway's field
    names ([tables], [schema]), which no built-in prototype defines. *)
Definition get_prop (v : JsValue) (name : string) : JsError + JsValue :=
  match v with
  | JUndefined =>
      inl (mkError TypeError ("Cannot read properties of undefined (reading '" ++ name ++ "')"))
  | JNull =>
      inl (mkError TypeError ("Cannot read properties of null (reading '" ++ name ++ "')"))
  | JObj props =>
      match lookup name props with
      | Some x => inr x
      | None => inr JUndefined
      end
  | _ => inr JUndefined
  end.

(** What [JSON.stringify] keeps of a value: a property whose value is
    [undefined] is left out, an [undefined] array element becomes [null]. *)
Fixpoint json (v : JsValue) : JsValue :=
  match v with
  | JArr items =>
      JArr (map (fun x => match x with
                          | JUndefined => JNull
                          | _ => json x
                          end) items)
  | JObj props =>
      JObj (flat_map (fun '(k, x) => match x with
                                     | JUndefined => []
                                     | _ => [(k, json x)]
                                     end) props)
  | _ => v
  end.

(** The regular expression [/\/$/] tried at the head of [s]: a slash followed
    by the end of the input. *)
Definition slash_then_end (s : string) : bool :=
  match s with
  | String c EmptyString => Ascii.eqb c "/"
  | _ => false
  end.

(** [s.replace(/\/$/, '')]: the leftmost match is replaced by nothing. *)
Fixpoint replace_slash_end (s : string) : string :=
  match s with
  | EmptyString => EmptyString
  | String c rest =>
      if slash_then_end s then EmptyString else String c (replace_slash_end rest)
  end.

(** The method call [v.replace(/\/$/, '')]: only strings have the method. *)
Definition replace (v : JsValue) : JsError + JsValue :=
  match v with
  | JStr s => inr (JStr (replace_slash_end s))
  | JUndefined =>
      inl (mkError TypeError "Cannot read properties of undefined (reading 'replace')")
  | JNull =>
      inl (mkError TypeError "Cannot read properties of null (reading 'replace')")
  | _ => inl (mkError TypeError "baseUrl.replace is not a function")
  end.

End JS.
Import JS.

(** ** The wire: requests, replies and axios *)

Inductive Method : Type := GET | POST.

(** [fs.ReadStream]: the file is opened after [createReadStream] has
    returned.  [stream_error] is the error the stream emits when the file
    cannot be opened (ENOENT for a missing file), [None] when the file is
    read to its end. *)
Record ReadStream : Type := { stream_path : string; stream_error : option JsError }.

(** A part of a [FormData]: a stream, or a scalar field. *)
Inductive FormValue : Type :=
| FormStream (s : ReadStream)
| FormField (v : JsValue).

Definition FormData : Type := list (string * FormValue).

Definition new_FormData : FormData := [].

(** [form.append(name, value)] of form-data: a number is appended as its
    string, an array is refused with an error, a stream or a string is
    appended as it is (and so is, here, any other value). *)
Definition form_append (form : FormData) (name : string) (value : FormValue)
  : JsError + FormData :=
  match value with
  | FormField (JArr _) => inl (mkError PlainError "Arrays are not supported.")
  | FormField (JNum n) => inr (form ++ [(name, FormField (JStr (decimal n)))])%list
  | _ => inr (form ++ [(name, value)])%list
  end.

(** The first file of a form that cannot be opened, if any. *)
Fixpoint first_stream_error (form : FormData) : option JsError :=
  match form with
  | [] => None
  | (_, FormStream s) :: rest =>
      match stream_error s with
      | Some e => Some e
      | None => first_stream_error rest
      end
  | (_, FormField _) :: rest => first_stream_error rest
  end.

Inductive Body : Type :=
| NoBody
| Json (v : JsValue)
| Multipart (form : FormData)
| Raw (v : JsValue).

Inductive Headers : Type :=
| DefaultHeaders
| FormHeaders.

(** A request an axios instance makes.  [req_baseURL] and [req_url] are
    the base URL of the instance and the url of the call, as given: the
    request target is built from them by axios and Node (percent-encoding,
    a fragment cut off). *)
Record Request : Type := {
  req_method : Method;
  req_baseURL : JsValue;
  req_url : string;
  req_timeout : Z;
  req_body : Body;
  req_headers : Headers
}.

(** What the gateway (or the network on the way to it) does with a request. *)
Inductive Reply : Type :=
| NoReply (message : string)
| HttpReply (status : Z) (body : JsValue).

Record Response : Type := { status : Z; data : JsValue }.

(** The instance made by [axios.create({ baseURL, timeout })]. *)
Record AxiosInstance : Type := { baseURL : JsValue; timeout : Z }.

Definition axios_create (baseURL : JsValue) (timeout : Z) : AxiosInstance :=
  {| baseURL := baseURL; timeout := timeout |}.

(** axios' default [transformRequest] as the http adapter sees it: objects
    and arrays go through [JSON.stringify]; a string is raw data; of the
    other values a falsy one ([undefined], [null], [false], [0]) is no body
    at all and a truthy one is handed on as it is, for the adapter to
    refuse. *)
Definition transformRequest (d : JsValue) : Body :=
  match d with
  | JObj _ | JArr _ => Json (json d)
  | JStr _ => Raw d
  | _ => if truthy d then Raw d else NoBody
  end.

(** Why a call is over before anything is sent: raw data that is not a
    string, or a form with a file that cannot be opened. *)
Definition refusal (b : Body) : option JsError :=
  match b with
  | Raw (JStr _) => None
  | Raw _ =>
      Some (mkError BadRequest
              "Data after transformation must be a string, an ArrayBuffer, a Buffer, or a Stream")
  | Multipart form => first_stream_error form
  | _ => None
  end.

(** axios' default [validateStatus]: the promise fulfils on a 2xx status and
    rejects otherwise; without a reply it rejects as well. *)
Definition settle (r : Reply) : JsError + Response :=
  match r with
  | NoReply msg => inl (mkError NetworkFailure msg)
  | HttpReply st body =>
      if (200 <=? st) && (st <? 300)
      then inr {| status := st; data := body |}
      else inl (mkError (BadStatus st body)
                        ("Request failed with status code " ++ decimal st))
  end.

Definition request (c : AxiosInstance) (m : Method) (url : string) (b : Body) (h : Headers)
  : Request :=
  {| req_method := m; req_baseURL := baseURL c; req_url := url;
     req_timeout := timeout c; req_body := b; req_headers := h |}.

(** ** The receiver object and asynchronous computations *)

(** A [DorisAgent] object.  A field that was never assigned reads as
    [undefined] ([None] for the axios instance). *)
Record DorisAgent : Type := {
  baseUrl : JsValue;
  apiKey : JsValue;
  client : option AxiosInstance
}.

(** The object [new] hands to the constructor. *)
Definition blank : DorisAgent :=
  {| baseUrl := JUndefined; apiKey := JUndefined; client := None |}.

Record World : Type := { this : DorisAgent; wire : list Request }.

(** An awaited computation: the world after it, and a rejection or a value. *)
Definition Async (A : Type) : Type := World -> World * (JsError + A).

Definition ret {A : Type} (a : A) : Async A := fun w => (w, inr a).

Definition lift {A : Type} (r : JsError + A) : Async A := fun w => (w, r).

Definition bind {A B : Type} (m : Async A) (k : A -> Async B) : Async B :=
  fun w =>
    match m w with
    | (w', inl e) => (w', inl e)
    | (w', inr a) => k a w'
    end.

Declare Scope async_scope.
Delimit Scope async_scope with async.
Notation "x <- m ;; k" := (bind m (fun x => k))
  (at level 100, m at next level, right associativity) : async_scope.
Notation "m ;; k" := (bind m (fun _ => k))
  (at level 100, right associativity) : async_scope.
Local Open Scope async_scope.

Definition this_baseUrl : Async JsValue := fun w => (w, inr (baseUrl (this w))).

Definition this_apiKey : Async JsValue := fun w => (w, inr (apiKey (this w))).

(** [this.client.get] / [this.client.post]: reading a method of a client that
    was never assigned throws. *)
Definition this_client (method : string) : Async AxiosInstance :=
  fun w =>
    match client (this w) with
    | Some c => (w, inr c)
    | None =>
        (w, inl (mkError TypeError
                   ("Cannot read properties of undefined (reading '" ++ method ++ "')")))
    end.

Definition set_baseUrl (v : JsValue) : Async unit :=
  fun w => ({| this := {| baseUrl := v; apiKey := apiKey (this w); client := client (this w) |};
               wire := wire w |}, inr tt).

Definition set_apiKey (v : JsValue) : Async unit :=
  fun w => ({| this := {| baseUrl := baseUrl (this w); apiKey := v; client := client (this w) |};
               wire := wire w |}, inr tt).

Definition set_client (c : AxiosInstance) : Async unit :=
  fun w => ({| this := {| baseUrl := baseUrl (this w); apiKey := apiKey (this w); client := Some c |};
               wire := wire w |}, inr tt).

Section Gateway.

(** The gateway, as seen through the network: its reply to a request may
    depend on the requests before it. *)
Variable server : list Request -> Request -> Reply.

(** [fs.createReadStream(path)]. *)
Variable createReadStream : JsValue -> JsError + ReadStream.

(** One HTTP call through an axios instance: unless the body is refused,
    the request goes out and the promise settles with the reply. *)
Definition axios_request (c : AxiosInstance) (m : Method) (url : string) (b : Body) (h : Headers)
  : Async Response :=
  fun w =>
    let r := request c m url b h in
    match refusal b with
    | Some e => (w, inl e)
    | None => ({| this := this w; wire := (wire w ++ [r])%list |}, settle (server (wire w) r))
    end.

Definition client_get (url : string) : Async Response :=
  c <- this_client "get" ;;
  axios_request c GET url NoBody DefaultHeaders.

Definition client_post (url : string) (b : Body) (h : Headers) : Async Response :=
  c <- this_client "post" ;;
  axios_request c POST url b h.

(** ** The class *)

Definition constructor (baseUrl apiKey : JsValue) : Async unit :=
  let baseUrl := default_param baseUrl (JStr "http://localhost:8018") in
  let apiKey := default_param apiKey JNull in
  stripped <- lift (replace baseUrl) ;;
  set_baseUrl stripped ;;
  set_apiKey apiKey ;;
  base <- this_baseUrl ;;
  set_client (axios_create base 60000).

(** [new DorisAgent(baseUrl, apiKey)]: the constructor runs on a blank
    object, which is the result unless the constructor throws. *)
Definition new_DorisAgent (baseUrl apiKey : JsValue) (net : list Request)
  : list Request * (JsError + DorisAgent) :=
  match constructor baseUrl apiKey {| this := blank; wire := net |} with
  | (w, inl e) => (wire w, inl e)
  | (w, inr _) => (wire w, inr (this w))
  end.

Definition healthCheck : Async JsValue :=
  response <- client_get "/api/health" ;;
  ret (data response).

Definition ask (question apiKey model : JsValue) : Async JsValue :=
  let apiKey := default_param apiKey JNull in
  let model := default_param model (JStr "deepseek-chat") in
  let payload := [("query", question)] in
  own <- this_apiKey ;;
  let key := js_or apiKey own in
  let payload :=
    if truthy key
    then set_prop (set_prop payload "api_key" key) "model" model
    else payload in
  response <- client_post "/api/query/natural" (transformRequest (JObj payload)) DefaultHeaders ;;
  ret (data response).

Definition uploadExcel (filePath tableName createTable : JsValue) : Async JsValue :=
  let createTable := default_param createTable (JBool true) in
  let form := new_FormData in
  stream <- lift (createReadStream filePath) ;;
  form <- lift (form_append form "file" (FormStream stream)) ;;
  form <- lift (form_append form "table_name" (FormField tableName)) ;;
  flag <- lift (toString createTable) ;;
  form <- lift (form_append form "create_table" (FormField (JStr flag))) ;;
  response <- client_post "/api/upload" (Multipart form) FormHeaders ;;
  ret (data response).

Definition previewExcel (filePath rows : JsValue) : Async JsValue :=
  let rows := default_param rows (JNum 10) in
  let form := new_FormData in
  stream <- lift (createReadStream filePath) ;;
  form <- lift (form_append form "file" (FormStream stream)) ;;
  count <- lift (toString rows) ;;
  form <- lift (form_append form "rows" (FormField (JStr count))) ;;
  response <- client_post "/api/upload/preview" (Multipart form) FormHeaders ;;
  ret (data response).

Definition query (sql : JsValue) : Async JsValue :=
  response <- client_post "/api/execute"
    (transformRequest (JObj [("action", JStr "query"); ("params", JObj [("sql", sql)])]))
    DefaultHeaders ;;
  ret (data response).

Definition getTables : Async JsValue :=
  response <- client_get "/api/tables" ;;
  lift (get_prop (data response) "tables").

Definition getTableSchema (tableName : JsValue) : Async JsValue :=
  response <- client_get ("/api/tables/" ++ ToString tableName ++ "/schema") ;;
  lift (get_prop (data response) "schema").

Definition createLLMConfig (config : JsValue) : Async JsValue :=
  response <- client_post "/api/llm/config" (transformRequest config) DefaultHeaders ;;
  ret (data response).

(** A call of one of the eight methods, with its arguments. *)
Inductive Operation : Type :=
| HealthCheck
| Ask (question apiKey model : JsValue)
| UploadExcel (filePath tableName createTable : JsValue)
| PreviewExcel (filePath rows : JsValue)
| Query (sql : JsValue)
| GetTables
| GetTableSchema (tableName : JsValue)
| CreateLLMConfig (config : JsValue).

Definition invoke (op : Operation) : Async JsValue :=
  match op with
  | HealthCheck => healthCheck
  | Ask question apiKey model => ask question apiKey model
  | UploadExcel filePath tableName createTable => uploadExcel filePath tableName createTable
  | PreviewExcel filePath rows => previewExcel filePath rows
  | Query sql => query sql
  | GetTables => getTables
  | GetTableSchema tableName => getTableSchema tableName
  | CreateLLMConfig config => createLLMConfig config
  end.

End Gateway.

(** An optional boolean argument: left out by the caller, or given. *)
Definition optional_bool (o : option bool) : JsValue :=
  match o with
  | None => JUndefined
  | Some b => JBool b
  end.

(** ** Concrete gateways and agents, for the examples below *)

Module Fixture.

(** A gateway that answers every request with [200 {"success": true}]. *)
Definition ok_server : list Request -> Request -> Reply :=
  fun _ _ => HttpReply 200 (JObj [("success", JBool true)]).

(** A gateway nobody listens on. *)
Definition refusing_server : list Request -> Request -> Reply :=
  fun _ _ => NoReply "connect ECONNREFUSED 127.0.0.1:8018".

(** A gateway that does not know the table. *)
Definition ghost_server : list Request -> Request -> Reply :=
  fun _ _ => HttpReply 404 (JObj [("detail", JObj [("error", JStr "table not found")])]).

(** A file system where every string is the path of a file. *)
Definition open_any (path : JsValue) : JsError + ReadStream :=
  match path with
  | JStr p => inr {| stream_path := p; stream_error := None |}
  | _ => inl (mkError TypeError "The path argument must be of type string")
  end.

Definition local_client : AxiosInstance := axios_create (JStr "http://localhost:8018") 60000.

(** [new DorisAgent()] and [new DorisAgent('http://localhost:8018', 'sk-default')],
    before any request. *)
Definition keyless : World :=
  {| this := {| baseUrl := JStr "http://localhost:8018"; apiKey := JNull;
                client := Some local_client |};
     wire := [] |}.

Definition keyed : World :=
  {| this := {| baseUrl := JStr "http://localhost:8018"; apiKey := JStr "sk-default";
                client := Some local_client |};
     wire := [] |}.

End Fixture.

(** ** Callers: a sequence of calls, and the example's [main] *)

(** The methods whose last statement is [return response.data]. *)
Definition returns_data (op : Operation) : bool :=
  match op with
  | GetTables | GetTableSchema _ => false
  | _ => true
  end.

Inductive Stream : Type := Stdout | Stderr.

(** One call of [console.log] (stdout) or [console.error] (stderr), with
    its arguments. *)
Record LogEntry : Type := { log_stream : Stream; log_args : list JsValue }.

(** The running example: the agent it holds, the wire, and the console. *)
Record Process : Type := { world : World; console : list LogEntry }.

Definition Script (A : Type) : Type := Process -> Process * (JsError + A).

Definition done {A : Type} (a : A) : Script A := fun p => (p, inr a).

Definition and_then {A B : Type} (m : Script A) (k : A -> Script B) : Script B :=
  fun p =>
    match m p with
    | (p', inl e) => (p', inl e)
    | (p', inr a) => k a p'
    end.

Declare Scope script_scope.
Delimit Scope script_scope with script.
Notation "x <- m ;; k" := (and_then m (fun x => k))
  (at level 100, m at next level, right associativity) : script_scope.
Notation "m ;; k" := (and_then m (fun _ => k))
  (at level 100, right associativity) : script_scope.

(** [await agent.method(...)]. *)
Definition await {A : Type} (m : Async A) : Script A :=
  fun p =>
    match m (world p) with
    | (w', r) => ({| world := w'; console := console p |}, r)
    end.

(** A property read that may throw, in the middle of a script. *)
Definition read (v : JsValue) (name : string) : Script JsValue :=
  fun p => (p, get_prop v name).

Definition console_log (args : list JsValue) : Script unit :=
  fun p =>
    ({| world := world p;
        console := (console p ++ [{| log_stream := Stdout; log_args := args |}])%list |},
     inr tt).

Definition console_error (args : list JsValue) : Script unit :=
  fun p =>
    ({| world := world p;
        console := (console p ++ [{| log_stream := Stderr; log_args := args |}])%list |},
     inr tt).

(** [try { body } catch (error) { handler }]. *)
Definition try_catch {A : Type} (body : Script A) (handler : JsError -> Script A) : Script A :=
  fun p =>
    match body p with
    | (p', inl e) => handler e p'
    | (p', inr a) => (p', inr a)
    end.

(** [for (const x of items) { body }]. *)
Fixpoint for_of {A : Type} (items : list A) (body : A -> Script unit) : Script unit :=
  match items with
  | [] => done tt
  | x :: rest => and_then (body x) (fun _ => for_of rest body)
  end.

(** [const agent = new DorisAgent(baseUrl, apiKey)]: the new object becomes
    the agent of the process. *)
Definition new_agent (baseUrl apiKey : JsValue) : Script unit :=
  fun p =>
    match new_DorisAgent baseUrl apiKey (wire (world p)) with
    | (net, inl e) => ({| world := {| this := this (world p); wire := net |};
                          console := console p |}, inl e)
    | (net, inr a) => ({| world := {| this := a; wire := net |};
                          console := console p |}, inr tt)
    end.

(** [error.message] and [error.response]: only an axios error for a reply
    outside 2xx carries the response. *)
Definition error_message (e : JsError) : JsValue := JStr (err_message e).

Definition error_response (e : JsError) : JsValue :=
  match err_kind e with
  | BadStatus st body => JObj [("status", JNum st); ("data", body)]
  | _ => JUndefined
  end.

(** [s.repeat(n)]. *)
Fixpoint repeat_string (s : string) (n : nat) : string :=
  match n with
  | O => ""
  | S n' => s ++ repeat_string s n'
  end.

Definition nl : string := String "010"%char "".

Section Callers.

Variable server : list Request -> Request -> Reply.
Variable createReadStream : JsValue -> JsError + ReadStream.

(** Calls made one after the other on the same agent, each awaited and its
    outcome, rejection included, left aside. *)
Definition calls (ops : list Operation) (w : World) : World :=
  fold_left (fun w' op => fst (invoke server createReadStream op w')) ops w.

Local Open Scope script_scope.

Definition main : Script unit :=
  new_agent (JStr "http://localhost:8018") (JStr "sk-748638f482f74b7392a6dafd89bdd307") ;;
  console_log [JStr (repeat_string "=" 60)] ;;
  console_log [JStr "Doris Agent 示例 (Node.js)"] ;;
  console_log [JStr (repeat_string "=" 60)] ;;
  try_catch
    (console_log [JStr (nl ++ "1. 健康检查...")] ;;
     health <- await (healthCheck server) ;;
     console_log [JStr "✅ 服务状态:"; health] ;;
     console_log [JStr (nl ++ "2. 查看所有表...")] ;;
     tables <- await (getTables server) ;;
     console_log [JStr "📊 数据库中的表:"; tables] ;;
     console_log [JStr (nl ++ "3. 自然语言查询示例...")] ;;
     let questions := [JStr "有哪些表?"; JStr "统计每个表的记录数"] in
     for_of questions (fun question =>
       console_log [JStr (nl ++ "❓ 问题: " ++ ToString question)] ;;
       try_catch
         (result <- await (ask server question JUndefined JUndefined) ;;
          sql <- read result "sql" ;;
          console_log [JStr ("📝 生成的 SQL:" ++ nl ++ ToString sql)] ;;
          rows <- read result "data" ;;
          console_log [JStr "📊 查询结果:"; rows] ;;
          count <- read result "count" ;;
          console_log [JStr ("📈 记录数: " ++ ToString count)])
         (fun error =>
            console_log [JStr "❌ 查询失败:"; error_message error])) ;;
     console_log [JStr (nl ++ "4. 直接 SQL 查询示例...")] ;;
     result <- await (query server (JStr "SHOW DATABASES")) ;;
     rows <- read result "data" ;;
     console_log [JStr "📊 数据库列表:"; rows] ;;
     console_log [JStr (nl ++ "5. Excel 上传示例...")] ;;
     console_log [JStr "💡 提示: 准备一个 Excel 文件,然后使用:"] ;;
     console_log [JStr "   const result = await agent.uploadExcel('data.xlsx', 'my_table');"] ;;
     console_log [JStr (nl ++ repeat_string "=" 60)] ;;
     console_log [JStr "✅ 示例完成!"] ;;
     console_log [JStr (repeat_string "=" 60)])
    (fun error =>
       console_error [JStr "❌ 错误:"; error_message error] ;;
       if truthy (error_response error)
       then detail <- read (error_response error) "data" ;;
            console_error [JStr "详细信息:"; detail]
       else done tt).

End Callers.

(** The five requests of [main], in the order it sends them. *)
Definition main_client : AxiosInstance :=
  {| baseURL := JStr "http://localhost:8018"; timeout := 60000 |}.

Definition main_ask (question : string) : Request :=
  request main_client POST "/api/query/natural"
    (Json (JObj [("query", JStr question);
                 ("api_key", JStr "sk-748638f482f74b7392a6dafd89bdd307");
                 ("model", JStr "deepseek-chat")]))
    DefaultHeaders.

Definition main_requests : list Request :=
  [request main_client GET "/api/health" NoBody DefaultHeaders;
   request main_client GET "/api/tables" NoBody DefaultHeaders;
   main_ask "有哪些表?";
   main_ask "统计每个表的记录数";
   request main_client POST "/api/execute"
     (Json (JObj [("action", JStr "query"); ("params", JObj [("sql", JStr "SHOW DATABASES")])]))
     DefaultHeaders].

(** The agent [main] constructs. *)
Definition main_agent : DorisAgent :=
  {| baseUrl := JStr "http://localhost:8018";
     apiKey := JStr "sk-748638f482f74b7392a6dafd89bdd307";
     client := Some main_client |}.

(** The world of [main] once it has sent its first [n] requests on top of
    the requests [net] that were there before. *)
Definition main_sent (net : list Request) (n : nat) (w : World) : Prop :=
  this w = main_agent /\ wire w = (net ++ firstn n main_requests)%list.

(** More gateways and the process [main] starts in. *)
Module Sample.

(** A gateway with one table, [institutions]. *)
Definition tables_server : list Request -> Request -> Reply :=
  fun _ _ =>
    HttpReply 200
      (JObj [("success", JBool true);
             ("tables", JArr [JStr "institutions"]);
             ("schema", JArr [JObj [("Field", JStr "id"); ("Type", JStr "INT")]])]).

(** A gateway that answers every request with [200 null]. *)
Definition null_server : list Request -> Request -> Reply :=
  fun _ _ => HttpReply 200 JNull.

(** A file system without the file: [createReadStream] makes the stream,
    and the stream fails with ENOENT when the file is opened. *)
Definition missing_file (path : JsValue) : JsError + ReadStream :=
  match path with
  | JStr p =>
      inr {| stream_path := p;
             stream_error :=
               Some (mkError PlainError
                       ("ENOENT: no such file or directory, open '" ++ p ++ "'")) |}
  | _ => inl (mkError TypeError "The path argument must be of type string")
  end.

(** Program start: no agent yet, nothing sent, nothing printed. *)
Definition boot : Process :=
  {| world := {| this := blank; wire := [] |}; console := [] |}.

End Sample.

(** A character of a plain table name: a digit, a letter or an underscore. *)
Definition name_char (c : ascii) : bool :=
  let n := N_of_ascii c in
  (((48 <=? n) && (n <=? 57)) || ((65 <=? n) && (n <=? 90)) ||
   ((97 <=? n) && (n <=? 122)) || (n =? 95))%N.

Fixpoint name_chars (s : string) : bool :=
  match s with
  | EmptyString => true
  | String c rest => name_char c && name_chars rest
  end.

(** A table name that reaches the gateway as it is written: not empty, and
    made of such characters only. *)
Definition plain_name (s : string) : bool := negb (String.eqb s "") && name_chars s.

(** How a script run ended: [ok] is asked of its value and final process
    when it fulfils, [ko] of its final process when it rejects. *)
Definition outcome {A : Type} (ok : A -> Process -> Prop) (ko : Process -> Prop)
    (out : Process * (JsError + A)) : Prop :=
  match out with
  | (p, inr a) => ok a p
  | (p, inl _) => ko p
  end.

(** ** Running the primitives *)

Ltac run_async :=
  unfold healthCheck, ask, uploadExcel, previewExcel, query, getTables, getTableSchema,
    createLLMConfig, client_get, client_post, axios_request, this_client, this_apiKey,
    this_baseUrl, bind, ret, lift; cbn [fst snd this wire].

(** Case analysis on the innermost scrutinee, until no [match] is left. *)
Ltac split_cases :=
  repeat match goal with
         | |- context [match ?x with _ => _ end] =>
             lazymatch x with
             | context [match _ with _ => _ end] => fail
             | _ => destruct x eqn:?; cbn [fst snd this wire]
             end
         end.

Section Primitives.

Variable server : list Request -> Request -> Reply.

Lemma client_get_sends w c url :
  client (this w) = Some c ->
  client_get server url w =
    ({| this := this w; wire := (wire w ++ [request c GET url NoBody DefaultHeaders])%list |},
     settle (server (wire w) (request c GET url NoBody DefaultHeaders))).
Proof. intros Hc. run_async. rewrite Hc. reflexivity. Qed.

Lemma client_post_sends w c url b h :
  client (this w) = Some c ->
  refusal b = None ->
  client_post server url b h w =
    ({| this := this w; wire := (wire w ++ [request c POST url b h])%list |},
     settle (server (wire w) (request c POST url b h))).
Proof. intros Hc Hb. run_async. rewrite Hc, Hb. reflexivity. Qed.

Lemma client_post_refused w c url b h e :
  client (this w) = Some c ->
  refusal b = Some e ->
  client_post server url b h w = (w, inl e).
Proof. intros Hc Hb. run_async. rewrite Hc, Hb. reflexivity. Qed.

Lemma client_get_unset w url :
  client (this w) = None ->
  fst (client_get server url w) = w /\ exists e, snd (client_get server url w) = inl e.
Proof. intros Hc. run_async. rewrite Hc. split; [reflexivity | eexists; reflexivity]. Qed.

Lemma client_post_unset w url b h :
  client (this w) = None ->
  fst (client_post server url b h w) = w /\ exists e, snd (client_post server url b h w) = inl e.
Proof. intros Hc. run_async. rewrite Hc. split; [reflexivity | eexists; reflexivity]. Qed.

(** axios rejects exactly when there is no reply or the status is not 2xx. *)
Lemma settle_rejects (r : Reply) (e : JsError) :
  settle r = inl e <->
  (exists msg, r = NoReply msg /\ e = mkError NetworkFailure msg) \/
  (exists st body,
      r = HttpReply st body /\ ~ (200 <= st < 300) /\
      e = mkError (BadStatus st body) ("Request failed with status code " ++ decimal st)).
Proof.
  split.
  - destruct r as [msg | st body]; cbn [settle].
    + intros [= <-]. left. eexists. split; reflexivity.
    + destruct (Z.leb_spec 200 st), (Z.ltb_spec st 300); cbn [andb];
        intros [= <-]; right; exists st, body; (split; [reflexivity | split; [lia | reflexivity]]).
  - intros [(msg & -> & ->) | (st & body & -> & Hst & ->)]; cbn [settle]; [reflexivity |].
    destruct (Z.leb_spec 200 st), (Z.ltb_spec st 300); cbn [andb]; try reflexivity; lia.
Qed.

Lemma wire_not_grown (l : list Request) r : l <> (l ++ [r])%list.
Proof.
  intros H. apply (f_equal (@List.length Request)) in H.
  rewrite length_app in H. simpl in H. lia.
Qed.

End Primitives.

(** ** The methods, one request at a time *)

Section Methods.

Variable server : list Request -> Request -> Reply.
Variable createReadStream : JsValue -> JsError + ReadStream.

(** C7: no method assigns to a field of its receiver: after any call, with
    any arguments and whatever the gateway answers, [this] is the object it
    was before the call. *)
Theorem methods_leave_this_unchanged (op : Operation) (w : World) :
  this (fst (invoke server createReadStream op w)) = this w.
Proof.
  destruct op; cbn [invoke]; run_async; split_cases; reflexivity.
Qed.

(** Every method puts at most one request on the wire. *)
Lemma methods_send_at_most_once (op : Operation) (w : World) :
  wire (fst (invoke server createReadStream op w)) = wire w \/
  exists r, wire (fst (invoke server createReadStream op w)) = (wire w ++ [r])%list.
Proof.
  destruct op; cbn [invoke]; run_async; split_cases;
    solve [left; reflexivity | right; eexists; reflexivity].
Qed.

(** C3: when a method has sent its request [r] and axios rejects the call
    with [e] (no reply, or a reply outside 2xx), the method rejects with
    that very [e]: same kind, same message. *)
Theorem failure_surfaces_unmodified (op : Operation) (w : World) (r : Request) (e : JsError) :
  wire (fst (invoke server createReadStream op w)) = (wire w ++ [r])%list ->
  settle (server (wire w) r) = inl e ->
  snd (invoke server createReadStream op w) = inl e.
Proof.
  destruct op; cbn [invoke]; run_async; split_cases; intros Hw Hs;
    try (exfalso; exact (wire_not_grown _ _ Hw));
    apply app_inj_tail in Hw; destruct Hw as [_ <-]; congruence.
Qed.

End Methods.

(** ** The constructor *)

Lemma replace_slash_end_strips (t : string) : replace_slash_end (t ++ "/") = t.
Proof.
  induction t as [| c t IH]; [reflexivity |].
  change (String c t ++ "/") with (String c (t ++ "/")).
  cbn [replace_slash_end slash_then_end].
  destruct (t ++ "/") eqn:E.
  - destruct t; discriminate.
  - rewrite IH. reflexivity.
Qed.

Lemma replace_slash_end_keeps (s : string) :
  (forall t, s <> t ++ "/") -> replace_slash_end s = s.
Proof.
  induction s as [| c s IH]; intros Hno; [reflexivity |].
  cbn [replace_slash_end slash_then_end].
  destruct s as [| d s'].
  - destruct (Ascii.eqb_spec c "/") as [-> | _]; [| reflexivity].
    exfalso. apply (Hno ""). reflexivity.
  - rewrite IH; [reflexivity |].
    intros t Ht. apply (Hno (String c t)). cbn. rewrite <- Ht. reflexivity.
Qed.

Lemma constructor_runs (baseUrl apiKey : JsValue) (w : World) :
  constructor baseUrl apiKey w =
    match replace (default_param baseUrl (JStr "http://localhost:8018")) with
    | inl e => (w, inl e)
    | inr stripped =>
        ({| this := {| baseUrl := stripped; apiKey := default_param apiKey JNull;
                       client := Some (axios_create stripped 60000) |};
            wire := wire w |}, inr tt)
    end.
Proof.
  unfold constructor, bind, lift, set_baseUrl, set_apiKey, set_client, this_baseUrl.
  destruct (replace _); reflexivity.
Qed.

(** C4: [new DorisAgent(baseUrl, apiKey)] puts nothing on the wire, whatever
    its arguments; and when it throws, the base URL argument was given and
    is not a string. *)
Theorem construction_sends_nothing_and_fails_only_on_bad_base_url
    (baseUrl apiKey : JsValue) (net : list Request) :
  fst (new_DorisAgent baseUrl apiKey net) = net /\
  (forall e, snd (new_DorisAgent baseUrl apiKey net) = inl e ->
     baseUrl <> JUndefined /\ forall s, baseUrl <> JStr s).
Proof.
  unfold new_DorisAgent. rewrite constructor_runs.
  destruct baseUrl; cbn; (split; [reflexivity |]); intros e He;
    try discriminate; split; intros; discriminate.
Qed.

(** C8: for a base URL string [s], the agent stores [s] without its trailing
    slash ([s] itself when it does not end in a slash), hands the same
    string to axios, and the axios instance has a timeout of 60 seconds
    (60000 ms). *)
Theorem constructor_strips_trailing_slash (s : string) (apiKey : JsValue) (net : list Request) :
  exists stored,
    snd (new_DorisAgent (JStr s) apiKey net) =
      inr {| baseUrl := JStr stored; apiKey := default_param apiKey JNull;
             client := Some {| baseURL := JStr stored; timeout := 60 * 1000 |} |} /\
    (forall t, s = t ++ "/" -> stored = t) /\
    ((forall t, s <> t ++ "/") -> stored = s).
Proof.
  exists (replace_slash_end s). split; [| split].
  - unfold new_DorisAgent. rewrite constructor_runs. reflexivity.
  - intros t ->. apply replace_slash_end_strips.
  - apply replace_slash_end_keeps.
Qed.

(** ** [ask]: what goes into the payload *)

Section Ask.

Variable server : list Request -> Request -> Reply.

(** The properties [ask] assigns before it posts. *)
Lemma ask_sends (q k m : JsValue) (w : World) (c : AxiosInstance) :
  client (this w) = Some c ->
  wire (fst (ask server q k m w)) =
    (wire w ++
     [request c POST "/api/query/natural"
        (transformRequest
           (JObj (if truthy (js_or (default_param k JNull) (apiKey (this w)))
                  then [("query", q);
                        ("api_key", js_or (default_param k JNull) (apiKey (this w)));
                        ("model", default_param m (JStr "deepseek-chat"))]
                  else [("query", q)])))
        DefaultHeaders])%list.
Proof.
  intros Hc. unfold ask, bind, this_apiKey.
  rewrite (client_post_sends server w c _ _ _ Hc) by reflexivity.
  destruct (settle _); cbn [fst wire ret]; destruct (truthy _); reflexivity.
Qed.

Lemma truthy_default_null (k : JsValue) : truthy (default_param k JNull) = truthy k.
Proof. destruct k; reflexivity. Qed.

Lemma truthy_js_or (a b : JsValue) : truthy (js_or a b) = truthy a || truthy b.
Proof. unfold js_or. destruct (truthy a) eqn:E; [rewrite E |]; reflexivity. Qed.

Lemma default_param_defined (x d : JsValue) : d <> JUndefined -> default_param x d <> JUndefined.
Proof. destruct x; cbn; intros H; try discriminate; exact H. Qed.

(** The serialised payload of a call with a usable key: both properties are
    there, after [query] if the question was not [undefined]. *)
Lemma keyed_payload (q key model : JsValue) :
  truthy key = true -> model <> JUndefined ->
  exists head,
    json (JObj [("query", q); ("api_key", key); ("model", model)]) =
      JObj (head ++ [("api_key", json key); ("model", json model)])%list /\
    (head = [] \/ head = [("query", json q)]).
Proof.
  intros Hk Hm.
  exists (match q with JUndefined => [] | _ => [("query", json q)] end).
  split.
  - cbn [json flat_map]. f_equal. f_equal.
    destruct key; try discriminate Hk; destruct model; try (exfalso; apply Hm; reflexivity);
      reflexivity.
  - destruct q; auto.
Qed.

Lemma keyless_payload (q : JsValue) :
  json (JObj [("query", q)]) = JObj [] \/ json (JObj [("query", q)]) = JObj [("query", json q)].
Proof. destruct q; cbn; auto. Qed.

(** C1, as the code has it: the payload of [ask] carries [api_key] and
    [model] exactly when a usable (truthy) key is at hand, from the call or
    from the constructor; a model given without any key is not sent. *)
Theorem ask_sends_key_and_model_together (q k m : JsValue) (w : World) (c : AxiosInstance) :
  client (this w) = Some c ->
  exists fields,
    wire (fst (ask server q k m w)) =
      (wire w ++ [request c POST "/api/query/natural" (Json (JObj fields)) DefaultHeaders])%list /\
    has_field "api_key" fields = (truthy k || truthy (apiKey (this w)))%bool /\
    has_field "model" fields = (truthy k || truthy (apiKey (this w)))%bool.
Proof.
  intros Hc. rewrite (ask_sends q k m w c Hc).
  rewrite <- (truthy_default_null k), <- truthy_js_or.
  destruct (truthy (js_or _ _)) eqn:Hk.
  - destruct (keyed_payload q _ (default_param m (JStr "deepseek-chat")) Hk) as (head & E & Hh).
    { apply default_param_defined. discriminate. }
    exists (head ++ [("api_key", json (js_or (default_param k JNull) (apiKey (this w))));
                     ("model", json (default_param m (JStr "deepseek-chat")))])%list.
    unfold transformRequest. rewrite E.
    destruct Hh as [-> | ->]; repeat split; reflexivity.
  - unfold transformRequest.
    destruct (keyless_payload q) as [E | E]; rewrite E; eexists; repeat split; reflexivity.
Qed.

(** C2, as the code has it: with a usable key and no model argument, the
    payload carries the model name the method defaults to, [deepseek-chat]. *)
Theorem ask_defaults_model_to_deepseek_chat (q k : JsValue) (w : World) (c : AxiosInstance) :
  client (this w) = Some c ->
  (truthy k || truthy (apiKey (this w)))%bool = true ->
  exists fields,
    wire (fst (ask server q k JUndefined w)) =
      (wire w ++ [request c POST "/api/query/natural" (Json (JObj fields)) DefaultHeaders])%list /\
    lookup "model" fields = Some (JStr "deepseek-chat").
Proof.
  intros Hc Hk. rewrite (ask_sends q k JUndefined w c Hc).
  rewrite <- (truthy_default_null k), <- truthy_js_or in Hk. rewrite Hk.
  destruct (keyed_payload q _ (JStr "deepseek-chat") Hk) as (head & E & Hh); [discriminate |].
  cbn [default_param]. unfold transformRequest. rewrite E.
  eexists. split; [reflexivity |].
  destruct Hh as [-> | ->]; reflexivity.
Qed.

(** C9: a non-empty string given as the per-call key is the key that is
    sent, whatever the constructor's key; with [null], [undefined] or the
    empty string as the per-call key, the constructor's key is sent when it
    is usable, and no key at all otherwise. *)
Theorem ask_key_override_and_fallback (q k m : JsValue) (w : World) (c : AxiosInstance) :
  client (this w) = Some c ->
  exists fields,
    wire (fst (ask server q k m w)) =
      (wire w ++ [request c POST "/api/query/natural" (Json (JObj fields)) DefaultHeaders])%list /\
    (forall s, k = JStr s -> s <> "" -> lookup "api_key" fields = Some (JStr s)) /\
    (k = JNull \/ k = JUndefined \/ k = JStr "" ->
     lookup "api_key" fields =
       if truthy (apiKey (this w)) then Some (json (apiKey (this w))) else None).
Proof.
  intros Hc. rewrite (ask_sends q k m w c Hc).
  destruct (truthy (js_or _ _)) eqn:Hk.
  - destruct (keyed_payload q _ (default_param m (JStr "deepseek-chat")) Hk) as (head & E & Hh).
    { apply default_param_defined. discriminate. }
    unfold transformRequest. rewrite E. eexists. split; [reflexivity |]. split.
    + intros s -> Hs. cbn [default_param].
      assert (Hown : js_or (JStr s) (apiKey (this w)) = JStr s).
      { unfold js_or. cbn [truthy]. destruct (String.eqb_spec s ""); [contradiction | reflexivity]. }
      rewrite Hown. destruct Hh as [-> | ->]; reflexivity.
    + intros Hnone.
      assert (Hfall : js_or (default_param k JNull) (apiKey (this w)) = apiKey (this w))
        by (destruct Hnone as [-> | [-> | ->]]; reflexivity).
      rewrite Hfall in *. rewrite Hk.
      destruct Hh as [-> | ->]; reflexivity.
  - unfold transformRequest.
    rewrite truthy_js_or, truthy_default_null in Hk. apply orb_false_iff in Hk as [Hk1 Hk2].
    destruct (keyless_payload q) as [E | E]; rewrite E; eexists;
      (split; [reflexivity |]); (split; [intros s -> Hs | intros _; rewrite Hk2; reflexivity]).
    all: cbn in Hk1; destruct (String.eqb_spec s ""); [contradiction | discriminate].
Qed.

End Ask.

(** ** [query], [uploadExcel], [getTables] and [getTableSchema] *)

Section Requests.

Variable server : list Request -> Request -> Reply.
Variable createReadStream : JsValue -> JsError + ReadStream.

(** C5: [query(s)] posts to [/api/execute] the JSON body
    [{action: "query", params: {sql: s}}], and nothing else. *)
Theorem query_posts_action_and_sql (s : string) (w : World) (c : AxiosInstance) :
  client (this w) = Some c ->
  wire (fst (query server (JStr s) w)) =
    (wire w ++
     [request c POST "/api/execute"
        (Json (JObj [("action", JStr "query"); ("params", JObj [("sql", JStr s)])]))
        DefaultHeaders])%list.
Proof.
  intros Hc. unfold query, bind.
  rewrite (client_post_sends server w c _ _ _ Hc) by reflexivity.
  destruct (settle _); reflexivity.
Qed.

(** C6, as the code has it: for the path of a file that can be opened,
    [uploadExcel(path, table, flag)] posts to [/api/upload] a form of
    exactly three parts: the file stream, [table_name], and [create_table]
    as the string of the flag, which is [true] when the caller leaves the
    flag out. *)
Theorem uploadExcel_posts_three_parts
    (path table : string) (flag : option bool) (w : World) (c : AxiosInstance)
    (stream : ReadStream) :
  client (this w) = Some c ->
  createReadStream (JStr path) = inr stream ->
  stream_error stream = None ->
  wire (fst (uploadExcel server createReadStream (JStr path) (JStr table) (optional_bool flag) w)) =
    (wire w ++
     [request c POST "/api/upload"
        (Multipart [("file", FormStream stream);
                    ("table_name", FormField (JStr table));
                    ("create_table",
                     FormField (JStr (match flag with
                                      | Some false => "false"
                                      | Some true | None => "true"
                                      end)))])
        FormHeaders])%list.
Proof.
  intros Hc Hs Hopen. unfold uploadExcel, bind, lift. rewrite Hs.
  destruct flag as [[|] |];
    cbn [optional_bool default_param toString ToString form_append new_FormData app];
    rewrite (client_post_sends server _ c _ _ _ Hc)
      by (cbn [refusal first_stream_error]; rewrite Hopen; reflexivity);
    destruct (settle _); reflexivity.
Qed.

(** A file that cannot be opened is never sent: the call rejects with the
    error of the stream and the wire stays as it was. *)
Lemma unopened_file_sends_nothing
    (path table : string) (flag : option bool) (w : World) (c : AxiosInstance)
    (stream : ReadStream) (e : JsError) :
  client (this w) = Some c ->
  createReadStream (JStr path) = inr stream ->
  stream_error stream = Some e ->
  uploadExcel server createReadStream (JStr path) (JStr table) (optional_bool flag) w
    = (w, inl e).
Proof.
  intros Hc Hs Hopen. unfold uploadExcel, bind, lift. rewrite Hs.
  destruct flag as [[|] |];
    cbn [optional_bool default_param toString ToString form_append new_FormData app];
    rewrite (client_post_refused server _ c _ _ _ e Hc)
      by (cbn [refusal first_stream_error]; rewrite Hopen; reflexivity);
    reflexivity.
Qed.

Lemma get_prop_missing (body : JsValue) (name : string) :
  body <> JNull -> body <> JUndefined ->
  (forall fields, body = JObj fields -> lookup name fields = None) ->
  get_prop body name = inr JUndefined.
Proof.
  intros Hnull Hundef Hmiss. destruct body; try reflexivity; try contradiction.
  cbn [get_prop]. rewrite (Hmiss props eq_refl). reflexivity.
Qed.

(** C10, as the code has it: on a 2xx reply whose body is any JSON value
    but [null] and does not have the field (an object without it, or an
    array, a string, a number, a boolean), neither method validates
    anything: [getTables] fulfils with [undefined] when [tables] is
    missing, [getTableSchema] when [schema] is. *)
Theorem missing_field_reads_as_undefined
    (w : World) (c : AxiosInstance) (st : Z) (body tableName : JsValue) :
  client (this w) = Some c ->
  200 <= st < 300 ->
  body <> JNull ->
  body <> JUndefined ->
  (server (wire w) (request c GET "/api/tables" NoBody DefaultHeaders)
     = HttpReply st body ->
   (forall fields, body = JObj fields -> lookup "tables" fields = None) ->
   snd (getTables server w) = inr JUndefined) /\
  (server (wire w)
     (request c GET ("/api/tables/" ++ ToString tableName ++ "/schema") NoBody DefaultHeaders)
     = HttpReply st body ->
   (forall fields, body = JObj fields -> lookup "schema" fields = None) ->
   snd (getTableSchema server tableName w) = inr JUndefined).
Proof.
  intros Hc Hst Hnull Hundef.
  assert (Hok : (200 <=? st) && (st <? 300) = true).
  { apply andb_true_iff. split; [apply Z.leb_le | apply Z.ltb_lt]; lia. }
  split; intros Hreply Hmiss.
  - unfold getTables, bind, lift. rewrite (client_get_sends server w c _ Hc), Hreply.
    cbn [settle]. rewrite Hok. cbn [data snd].
    apply get_prop_missing; assumption.
  - unfold getTableSchema, bind, lift. rewrite (client_get_sends server w c _ Hc), Hreply.
    cbn [settle]. rewrite Hok. cbn [data snd].
    apply get_prop_missing; assumption.
Qed.

(** A body that is not an object at all is a different matter: on the JSON
    body [null] the property read itself throws. *)
Lemma null_body_throws (w : World) (c : AxiosInstance) :
  client (this w) = Some c ->
  server (wire w) (request c GET "/api/tables" NoBody DefaultHeaders) = HttpReply 200 JNull ->
  exists msg, snd (getTables server w) = inl (mkError TypeError msg).
Proof.
  intros Hc Hreply. unfold getTables, bind, lift.
  rewrite (client_get_sends server w c _ Hc), Hreply. cbn. eexists. reflexivity.
Qed.

End Requests.

(** ** The theorems at work on concrete agents *)

Import Fixture.

(** [getTableSchema("ghost")] against a gateway answering 404: the axios
    rejection, status and body included, is what the caller gets. *)
Lemma failure_surfaces_unmodified_ghost :
  let r := request local_client GET "/api/tables/ghost/schema" NoBody DefaultHeaders in
  let e := mkError
             (BadStatus 404 (JObj [("detail", JObj [("error", JStr "table not found")])]))
             "Request failed with status code 404" in
  wire (fst (invoke ghost_server open_any (GetTableSchema (JStr "ghost")) keyless)) = [r] /\
  settle (ghost_server [] r) = inl e /\
  snd (invoke ghost_server open_any (GetTableSchema (JStr "ghost")) keyless) = inl e.
Proof.
  cbv zeta. split; [reflexivity |]. split; [reflexivity |].
  apply (failure_surfaces_unmodified ghost_server open_any (GetTableSchema (JStr "ghost")) keyless
           (request local_client GET "/api/tables/ghost/schema" NoBody DefaultHeaders));
    reflexivity.
Defined.

(** A refused connection on [healthCheck] surfaces as the network failure. *)
Example healthCheck_refused :
  snd (healthCheck refusing_server keyless) =
    inl (mkError NetworkFailure "connect ECONNREFUSED 127.0.0.1:8018").
Proof. reflexivity. Qed.

(** [new DorisAgent(null)] throws; [new DorisAgent("not a url")] does not. *)
Lemma construction_fails_on_null_base_url :
  (exists e, snd (new_DorisAgent JNull JUndefined []) = inl e) /\
  JNull <> JUndefined /\ forall s, JNull <> JStr s.
Proof.
  split; [eexists; reflexivity |].
  exact (proj2 (construction_sends_nothing_and_fails_only_on_bad_base_url JNull JUndefined [])
           _ eq_refl).
Defined.

Example construction_accepts_any_string :
  snd (new_DorisAgent (JStr "not a url") JUndefined []) =
    inr {| baseUrl := JStr "not a url"; apiKey := JNull;
           client := Some {| baseURL := JStr "not a url"; timeout := 60000 |} |}.
Proof. reflexivity. Qed.

(** Only one trailing slash goes. *)
Example constructor_strips_one_slash :
  snd (new_DorisAgent (JStr "http://localhost:8018//") (JStr "sk-default") []) =
    inr {| baseUrl := JStr "http://localhost:8018/"; apiKey := JStr "sk-default";
           client := Some {| baseURL := JStr "http://localhost:8018/"; timeout := 60000 |} |}.
Proof. reflexivity. Qed.

(** [ask("q")] on an agent built with a key: the key and the model are sent. *)
Lemma ask_sends_key_and_model_together_keyed :
  client (this keyed) = Some local_client /\
  exists fields,
    wire (fst (ask ok_server (JStr "q") JUndefined JUndefined keyed)) =
      [request local_client POST "/api/query/natural" (Json (JObj fields)) DefaultHeaders] /\
    has_field "api_key" fields = true /\
    has_field "model" fields = true.
Proof.
  split; [reflexivity |].
  exact (ask_sends_key_and_model_together ok_server (JStr "q") JUndefined JUndefined keyed
           local_client eq_refl).
Defined.

(** C1 as stated fails: [ask("q", undefined, "gpt-4")] on an agent without a
    key supplies a model, and the payload has neither [model] nor [api_key]. *)
Lemma ask_model_without_key_is_dropped :
  exists fields,
    map req_body (wire (fst (ask ok_server (JStr "q") JUndefined (JStr "gpt-4") keyless))) =
      [Json (JObj fields)] /\
    has_field "model" fields = false /\
    has_field "api_key" fields = false.
Proof. eexists. repeat split. Qed.

(** [ask("q", "sk-call")] on an agent without a key: the default model goes out. *)
Lemma ask_defaults_model_to_deepseek_chat_keyless :
  client (this keyless) = Some local_client /\
  (truthy (JStr "sk-call") || truthy (apiKey (this keyless)))%bool = true /\
  exists fields,
    wire (fst (ask ok_server (JStr "q") (JStr "sk-call") JUndefined keyless)) =
      [request local_client POST "/api/query/natural" (Json (JObj fields)) DefaultHeaders] /\
    lookup "model" fields = Some (JStr "deepseek-chat").
Proof.
  split; [reflexivity |]. split; [reflexivity |].
  exact (ask_defaults_model_to_deepseek_chat ok_server (JStr "q") (JStr "sk-call") keyless
           local_client eq_refl eq_refl).
Defined.

(** C2 as stated fails: with a key and no model argument, the payload does
    have a [model] field. *)
Lemma ask_without_model_still_sends_model :
  exists fields,
    map req_body (wire (fst (ask ok_server (JStr "q") (JStr "sk-call") JUndefined keyless))) =
      [Json (JObj fields)] /\
    has_field "model" fields = true.
Proof. eexists. repeat split. Qed.

(** An empty per-call key on an agent built with [sk-default]: the
    constructor's key goes out. *)
Lemma ask_key_override_and_fallback_keyed :
  client (this keyed) = Some local_client /\
  exists fields,
    wire (fst (ask ok_server (JStr "q") (JStr "") JUndefined keyed)) =
      [request local_client POST "/api/query/natural" (Json (JObj fields)) DefaultHeaders] /\
    (forall s, JStr "" = JStr s -> s <> "" -> lookup "api_key" fields = Some (JStr s)) /\
    (JStr "" = JNull \/ JStr "" = JUndefined \/ JStr "" = JStr "" ->
     lookup "api_key" fields = Some (JStr "sk-default")).
Proof.
  split; [reflexivity |].
  exact (ask_key_override_and_fallback ok_server (JStr "q") (JStr "") JUndefined keyed
           local_client eq_refl).
Defined.

Lemma query_posts_action_and_sql_show_databases :
  client (this keyless) = Some local_client /\
  wire (fst (query ok_server (JStr "SHOW DATABASES") keyless)) =
    [request local_client POST "/api/execute"
       (Json (JObj [("action", JStr "query"); ("params", JObj [("sql", JStr "SHOW DATABASES")])]))
       DefaultHeaders].
Proof.
  split; [reflexivity |].
  exact (query_posts_action_and_sql ok_server "SHOW DATABASES" keyless local_client eq_refl).
Defined.

Lemma uploadExcel_posts_three_parts_default_flag :
  client (this keyless) = Some local_client /\
  open_any (JStr "data.xlsx") = inr {| stream_path := "data.xlsx"; stream_error := None |} /\
  stream_error {| stream_path := "data.xlsx"; stream_error := None |} = None /\
  wire (fst (uploadExcel ok_server open_any (JStr "data.xlsx") (JStr "my_table")
               (optional_bool None) keyless)) =
    [request local_client POST "/api/upload"
       (Multipart [("file", FormStream {| stream_path := "data.xlsx"; stream_error := None |});
                   ("table_name", FormField (JStr "my_table"));
                   ("create_table", FormField (JStr "true"))])
       FormHeaders].
Proof.
  split; [reflexivity |]. split; [reflexivity |]. split; [reflexivity |].
  exact (uploadExcel_posts_three_parts ok_server open_any "data.xlsx" "my_table" None keyless
           local_client {| stream_path := "data.xlsx"; stream_error := None |}
           eq_refl eq_refl eq_refl).
Defined.

(** C6 as stated fails: for the path of a file that is not there,
    [uploadExcel] rejects with the ENOENT of the stream and sends no form at
    all. *)
Lemma uploadExcel_sends_nothing_for_a_missing_file :
  uploadExcel ok_server Sample.missing_file (JStr "missing.xlsx") (JStr "my_table") JUndefined
    keyless =
    (keyless,
     inl (mkError PlainError "ENOENT: no such file or directory, open 'missing.xlsx'")) /\
  wire (fst (uploadExcel ok_server Sample.missing_file (JStr "missing.xlsx") (JStr "my_table")
               JUndefined keyless)) = [].
Proof. split; reflexivity. Qed.

(** [ok_server] answers [200 {"success": true}]: no [tables], no [schema]. *)
Lemma missing_field_reads_as_undefined_ok_server :
  client (this keyless) = Some local_client /\
  200 <= 200 < 300 /\
  JObj [("success", JBool true)] <> JNull /\
  JObj [("success", JBool true)] <> JUndefined /\
  snd (getTables ok_server keyless) = inr JUndefined /\
  snd (getTableSchema ok_server (JStr "institutions") keyless) = inr JUndefined.
Proof.
  assert (Hst : 200 <= 200 < 300) by lia.
  assert (Hnull : JObj [("success", JBool true)] <> JNull) by discriminate.
  assert (Hundef : JObj [("success", JBool true)] <> JUndefined) by discriminate.
  split; [reflexivity |]. split; [exact Hst |]. split; [exact Hnull |]. split; [exact Hundef |].
  destruct (missing_field_reads_as_undefined ok_server keyless local_client 200
              (JObj [("success", JBool true)]) (JStr "institutions") eq_refl Hst Hnull Hundef)
    as [Ht Hs].
  split; [apply Ht | apply Hs]; try reflexivity; intros fields [= <-]; reflexivity.
Defined.

(** C10 as stated fails: the 2xx JSON body [null] has no [tables] and no
    [schema], and both methods reject with the TypeError of the property
    read instead of returning [undefined]. *)
Lemma null_body_is_not_read_as_undefined :
  snd (getTables Sample.null_server keyless) =
    inl (mkError TypeError "Cannot read properties of null (reading 'tables')") /\
  snd (getTableSchema Sample.null_server (JStr "institutions") keyless) =
    inl (mkError TypeError "Cannot read properties of null (reading 'schema')").
Proof. split; reflexivity. Qed.

(** ** Beyond the claims: what every method does with a call *)

Section Calls.

Variable server : list Request -> Request -> Reply.
Variable createReadStream : JsValue -> JsError + ReadStream.

Lemma invoke_this (op : Operation) (w : World) :
  this (fst (invoke server createReadStream op w)) = this w.
Proof. destruct op; cbn [invoke]; run_async; split_cases; reflexivity. Qed.

Lemma two_hundreds (st : Z) : 200 <= st < 300 -> (200 <=? st) && (st <? 300) = true.
Proof. intros H. apply andb_true_iff. split; [apply Z.leb_le | apply Z.ltb_lt]; lia. Qed.

(** X1: the six methods that end in [return response.data] hand the body
    of a 2xx reply to the caller as it came: nothing is checked, unwrapped
    or converted. *)
Theorem success_body_returned_unchanged
    (op : Operation) (w : World) (r : Request) (st : Z) (body : JsValue) :
  returns_data op = true ->
  wire (fst (invoke server createReadStream op w)) = (wire w ++ [r])%list ->
  server (wire w) r = HttpReply st body ->
  200 <= st < 300 ->
  snd (invoke server createReadStream op w) = inr body.
Proof.
  intros Hop Hw Hreply Hst. apply two_hundreds in Hst.
  destruct op; try discriminate Hop; cbn [invoke] in *; revert Hw; run_async; split_cases;
    intros Hw; try (exfalso; exact (wire_not_grown _ _ Hw));
    apply app_inj_tail in Hw; destruct Hw as [_ <-];
    match goal with
    | H : settle _ = _ |- _ => rewrite Hreply in H; cbn [settle] in H; rewrite Hst in H
    end; try discriminate;
    match goal with
    | H : inr _ = inr _ |- _ => injection H as <-
    end; reflexivity.
Qed.

(** X2: when the 2xx body is an object that has the field, [getTables]
    fulfils with the value of [tables] and [getTableSchema] with the value
    of [schema], whatever that value is. *)
Theorem present_field_is_returned
    (w : World) (c : AxiosInstance) (st : Z) (fields : list (string * JsValue))
    (tableName v : JsValue) :
  client (this w) = Some c ->
  200 <= st < 300 ->
  (server (wire w) (request c GET "/api/tables" NoBody DefaultHeaders)
     = HttpReply st (JObj fields) ->
   lookup "tables" fields = Some v ->
   snd (getTables server w) = inr v) /\
  (server (wire w)
     (request c GET ("/api/tables/" ++ ToString tableName ++ "/schema") NoBody DefaultHeaders)
     = HttpReply st (JObj fields) ->
   lookup "schema" fields = Some v ->
   snd (getTableSchema server tableName w) = inr v).
Proof.
  intros Hc Hst. apply two_hundreds in Hst.
  split; intros Hreply Hfield.
  - unfold getTables, bind, lift. rewrite (client_get_sends server w c _ Hc), Hreply.
    cbn [settle]. rewrite Hst. cbn [data get_prop snd]. rewrite Hfield. reflexivity.
  - unfold getTableSchema, bind, lift. rewrite (client_get_sends server w c _ Hc), Hreply.
    cbn [settle]. rewrite Hst. cbn [data get_prop snd]. rewrite Hfield. reflexivity.
Qed.

Lemma one_request_or_rejection_aux (op : Operation) (w : World) :
  (exists r, wire (fst (invoke server createReadStream op w)) = (wire w ++ [r])%list) \/
  wire (fst (invoke server createReadStream op w)) = wire w.
Proof.
  destruct op; cbn [invoke]; run_async; split_cases;
    solve [left; eexists; reflexivity | right; reflexivity].
Qed.

(** X3: a call never answers without asking, and never asks twice: either
    it puts exactly one request on the wire, or it puts none and rejects. *)
Theorem one_request_or_rejection (op : Operation) (w : World) :
  (exists r, wire (fst (invoke server createReadStream op w)) = (wire w ++ [r])%list) \/
  (wire (fst (invoke server createReadStream op w)) = wire w /\
   exists e, snd (invoke server createReadStream op w) = inl e).
Proof.
  destruct op; cbn [invoke]; run_async; split_cases;
    solve [left; eexists; reflexivity | right; split; [reflexivity | eexists; reflexivity]].
Qed.

(** X4: every request of an agent made by [new DorisAgent(baseUrl, apiKey)]
    goes to the base URL the agent stores and has the 60000 ms timeout. *)
Theorem requests_carry_constructed_config
    (url key : JsValue) (net net' : list Request) (a : DorisAgent)
    (op : Operation) (r : Request) :
  new_DorisAgent url key net = (net', inr a) ->
  wire (fst (invoke server createReadStream op {| this := a; wire := net' |}))
    = (net' ++ [r])%list ->
  req_baseURL r = baseUrl a /\ req_timeout r = 60000.
Proof.
  unfold new_DorisAgent. rewrite constructor_runs.
  destruct (replace _) as [e | stripped]; cbn [wire this]; intros [= <- <-].
  destruct op; cbn [invoke]; run_async; cbn [client axios_create]; split_cases; intros Hw;
    try (exfalso; exact (wire_not_grown _ _ Hw));
    apply app_inj_tail in Hw; destruct Hw as [_ <-]; split; reflexivity.
Qed.

(** X5: for the path of a file that can be opened and a safe integer as
    the row count, [previewExcel(path, rows)] posts to [/api/upload/preview]
    a form of exactly two parts, the file stream and [rows] as the decimal
    string of the number; without a row count the string is [10]. *)
Theorem previewExcel_posts_two_parts
    (path : string) (n : Z) (w : World) (c : AxiosInstance) (stream : ReadStream) :
  client (this w) = Some c ->
  createReadStream (JStr path) = inr stream ->
  stream_error stream = None ->
  safe_integer n = true ->
  wire (fst (previewExcel server createReadStream (JStr path) (JNum n) w)) =
    (wire w ++
     [request c POST "/api/upload/preview"
        (Multipart [("file", FormStream stream); ("rows", FormField (JStr (decimal n)))])
        FormHeaders])%list /\
  wire (fst (previewExcel server createReadStream (JStr path) JUndefined w)) =
    (wire w ++
     [request c POST "/api/upload/preview"
        (Multipart [("file", FormStream stream); ("rows", FormField (JStr "10"))])
        FormHeaders])%list.
Proof.
  intros Hc Hs Hopen _. unfold previewExcel, bind, lift. rewrite Hs.
  cbn [default_param toString ToString form_append new_FormData app].
  rewrite !(client_post_sends server _ c _ _ _ Hc)
    by (cbn [refusal first_stream_error]; rewrite Hopen; reflexivity).
  split; destruct (settle _); reflexivity.
Qed.

(** X6: a default parameter replaces [undefined] only.  With a string as
    the table name and [null] as the create-table flag, or with [null] as
    the row count, the call ends in the TypeError of [null.toString()] and
    puts nothing on the wire. *)
Theorem null_flag_throws_before_sending
    (filePath : JsValue) (table : string) (w : World) (stream : ReadStream) :
  createReadStream filePath = inr stream ->
  uploadExcel server createReadStream filePath (JStr table) JNull w =
    (w, inl (mkError TypeError "Cannot read properties of null (reading 'toString')")) /\
  previewExcel server createReadStream filePath JNull w =
    (w, inl (mkError TypeError "Cannot read properties of null (reading 'toString')")).
Proof.
  intros Hs. unfold uploadExcel, previewExcel, bind, lift. rewrite Hs. split; reflexivity.
Qed.

(** X7: when the file cannot be opened, [uploadExcel] and [previewExcel]
    reject with the error of [fs.createReadStream] itself and the gateway
    is never contacted. *)
Theorem unreadable_file_is_never_sent
    (filePath tableName flag rows : JsValue) (w : World) (e : JsError) :
  createReadStream filePath = inl e ->
  uploadExcel server createReadStream filePath tableName flag w = (w, inl e) /\
  previewExcel server createReadStream filePath rows w = (w, inl e).
Proof.
  intros Hs. unfold uploadExcel, previewExcel, bind, lift. rewrite Hs. split; reflexivity.
Qed.

(** X8: the three reading methods send one GET without a body; for a
    table name made of letters, digits and underscores, the path of
    [getTableSchema] is [/api/tables/], the name and [/schema]. *)
Theorem reads_send_get_without_body (name : string) (w : World) (c : AxiosInstance) :
  client (this w) = Some c ->
  plain_name name = true ->
  wire (fst (healthCheck server w)) =
    (wire w ++ [request c GET "/api/health" NoBody DefaultHeaders])%list /\
  wire (fst (getTables server w)) =
    (wire w ++ [request c GET "/api/tables" NoBody DefaultHeaders])%list /\
  wire (fst (getTableSchema server (JStr name) w)) =
    (wire w ++ [request c GET ("/api/tables/" ++ name ++ "/schema") NoBody DefaultHeaders])%list.
Proof.
  intros Hc _. unfold healthCheck, getTables, getTableSchema, bind, lift.
  rewrite !(client_get_sends server w c _ Hc). cbn [ToString].
  repeat split; destruct (settle _); reflexivity.
Qed.

(** X9: any number of calls on an agent, each awaited, leave the agent as
    it was; the wire only grows, by at most one request per call. *)
Theorem calls_keep_agent_and_extend_wire (ops : list Operation) (w : World) :
  this (calls server createReadStream ops w) = this w /\
  exists sent,
    wire (calls server createReadStream ops w) = (wire w ++ sent)%list /\
    (List.length sent <= List.length ops)%nat.
Proof.
  revert w. induction ops as [| op ops IH]; intros w.
  - split; [reflexivity |]. exists []. split; [symmetry; apply app_nil_r | apply Nat.le_refl].
  - unfold calls in *. cbn [fold_left].
    destruct (IH (fst (invoke server createReadStream op w))) as (Ht & sent & Hw & Hlen).
    split; [rewrite Ht; apply invoke_this |].
    destruct (one_request_or_rejection_aux op w) as [[r Hr] | Hr].
    + exists (r :: sent). rewrite Hw, Hr, <- app_assoc. split; [reflexivity |].
      cbn [List.length]. lia.
    + exists sent. rewrite Hw, Hr. split; [reflexivity |]. cbn [List.length]. lia.
Qed.

End Calls.

(** X10: what a method sends does not depend on what the gateway answers:
    the same call on the same agent puts the same requests on the wire against
    any two gateways that share their history. *)
Theorem requests_do_not_depend_on_replies
    (server1 server2 : list Request -> Request -> Reply)
    (createReadStream : JsValue -> JsError + ReadStream) (op : Operation) (w : World) :
  wire (fst (invoke server1 createReadStream op w)) =
  wire (fst (invoke server2 createReadStream op w)).
Proof.
  destruct op; cbn [invoke]; run_async; split_cases; reflexivity.
Qed.

(** ** Beyond the claims: the payload of [ask] *)

Section AskPayload.

Variable server : list Request -> Request -> Reply.

Lemma keyed_payload_exact (q key model : JsValue) :
  truthy key = true -> model <> JUndefined ->
  json (JObj [("query", q); ("api_key", key); ("model", model)]) =
    JObj ((match q with
           | JUndefined => []
           | _ => [("query", json q)]
           end) ++ [("api_key", json key); ("model", json model)])%list.
Proof.
  intros Hk Hm.
  destruct q; destruct key; try discriminate Hk;
    destruct model; try (exfalso; apply Hm; reflexivity); reflexivity.
Qed.

Lemma keyless_payload_exact (q : JsValue) :
  json (JObj [("query", q)]) =
    JObj (match q with
          | JUndefined => []
          | _ => [("query", json q)]
          end).
Proof. destruct q; reflexivity. Qed.

(** X11: the payload of [ask] has no property but [query], and after it
    [api_key] and [model] when a key is at hand; in particular [base_url],
    which the gateway accepts, is never sent, and a call without a question
    sends no [query] at all. *)
Theorem ask_payload_names (q k m : JsValue) (w : World) (c : AxiosInstance) :
  client (this w) = Some c ->
  exists fields,
    wire (fst (ask server q k m w)) =
      (wire w ++ [request c POST "/api/query/natural" (Json (JObj fields)) DefaultHeaders])%list /\
    map fst fields =
      ((match q with
        | JUndefined => []
        | _ => ["query"]
        end) ++
       (if (truthy k || truthy (apiKey (this w)))%bool then ["api_key"; "model"] else []))%list.
Proof.
  intros Hc. rewrite (ask_sends server q k m w c Hc).
  rewrite <- (truthy_default_null k), <- truthy_js_or.
  unfold transformRequest.
  destruct (truthy (js_or _ _)) eqn:Hk.
  - rewrite (keyed_payload_exact q _ (default_param m (JStr "deepseek-chat")) Hk)
      by (apply default_param_defined; discriminate).
    eexists. split; [reflexivity |]. rewrite map_app. destruct q; reflexivity.
  - rewrite keyless_payload_exact. eexists. split; [reflexivity |]. destruct q; reflexivity.
Qed.

(** X12: with a key at hand, a model argument other than [undefined] is
    sent as given, [null] included: the default only stands in for a
    missing argument. *)
Theorem ask_sends_given_model (q k m : JsValue) (w : World) (c : AxiosInstance) :
  client (this w) = Some c ->
  (truthy k || truthy (apiKey (this w)))%bool = true ->
  m <> JUndefined ->
  exists fields,
    wire (fst (ask server q k m w)) =
      (wire w ++ [request c POST "/api/query/natural" (Json (JObj fields)) DefaultHeaders])%list /\
    lookup "model" fields = Some (json m).
Proof.
  intros Hc Hk Hm. rewrite (ask_sends server q k m w c Hc).
  rewrite <- (truthy_default_null k), <- truthy_js_or in Hk. rewrite Hk.
  assert (Hd : default_param m (JStr "deepseek-chat") = m)
    by (destruct m; try reflexivity; exfalso; apply Hm; reflexivity).
  rewrite Hd. unfold transformRequest. rewrite (keyed_payload_exact q _ m Hk Hm).
  eexists. split; [reflexivity |]. destruct q; reflexivity.
Qed.

End AskPayload.

(** ** Beyond the claims: the constructor strips one slash only *)

Lemma ends_in_slash_or_not (s : string) :
  (exists t, s = t ++ "/") \/ (forall t, s <> t ++ "/").
Proof.
  induction s as [| c s IH].
  - right. intros [| d t]; discriminate.
  - destruct IH as [[t ->] | Hno].
    + left. exists (String c t). reflexivity.
    + destruct s as [| d s'].
      * destruct (Ascii.eqb_spec c "/") as [-> | Hc].
        -- left. exists "". reflexivity.
        -- right. intros [| d t] H; cbn in H.
           ++ injection H as Hc'. contradiction.
           ++ injection H as _ H. destruct t; discriminate.
      * right. intros [| e t] H; cbn in H; [discriminate |].
        injection H as _ H. exact (Hno t H).
Qed.

Lemma string_append_assoc (a b c : string) : (a ++ b) ++ c = a ++ b ++ c.
Proof. induction a as [| x a IH]; cbn; [reflexivity | rewrite IH; reflexivity]. Qed.

Lemma append_slash_injective (a b : string) : a ++ "/" = b ++ "/" -> a = b.
Proof.
  revert b. induction a as [| c a IH]; intros [| d b] H; cbn in H.
  - reflexivity.
  - injection H as _ H. destruct b; discriminate.
  - injection H as _ H. destruct a; discriminate.
  - injection H as -> H. f_equal. apply IH. exact H.
Qed.

(** X13: the constructor removes a single slash: the stored base URL still
    ends in a slash exactly when the argument ended in two. *)
Theorem constructor_strips_only_one_slash
    (s : string) (key : JsValue) (net : list Request) :
  exists stored,
    snd (new_DorisAgent (JStr s) key net) =
      inr {| baseUrl := JStr stored; apiKey := default_param key JNull;
             client := Some {| baseURL := JStr stored; timeout := 60000 |} |} /\
    ((exists t, stored = t ++ "/") <-> (exists t, s = t ++ "/" ++ "/")).
Proof.
  exists (replace_slash_end s). split.
  - unfold new_DorisAgent. rewrite constructor_runs. reflexivity.
  - destruct (ends_in_slash_or_not s) as [[t ->] | Hno].
    + rewrite replace_slash_end_strips. split; intros [u Hu].
      * exists u. rewrite Hu. apply string_append_assoc.
      * exists u. apply append_slash_injective. rewrite Hu. symmetry. apply string_append_assoc.
    + rewrite (replace_slash_end_keeps s Hno). split; intros [u Hu].
      * exfalso. exact (Hno u Hu).
      * exfalso. apply (Hno (u ++ "/")). rewrite Hu. symmetry. apply string_append_assoc.
Qed.

(** ** Beyond the claims: the example's [main] *)

(** Postconditions for scripts, one rule per construct. *)

Section ScriptRules.

Context {A B : Type}.

Lemma and_then_rule (R : A -> Process -> Prop) (ok : B -> Process -> Prop) (ko : Process -> Prop)
    (m : Script A) (k : A -> Script B) (p : Process) :
  outcome R ko (m p) ->
  (forall a p', R a p' -> outcome ok ko (k a p')) ->
  outcome ok ko (and_then m k p).
Proof.
  unfold and_then, outcome.
  destruct (m p) as [p' [e | a]]; intros Hm Hk; [exact Hm | exact (Hk a p' Hm)].
Qed.

Lemma try_catch_rule (R : Process -> Prop) (ok : A -> Process -> Prop) (ko : Process -> Prop)
    (body : Script A) (handler : JsError -> Script A) (p : Process) :
  outcome ok R (body p) ->
  (forall e p', R p' -> outcome ok ko (handler e p')) ->
  outcome ok ko (try_catch body handler p).
Proof.
  unfold try_catch, outcome.
  destruct (body p) as [p' [e | a]]; intros Hb Hh; [exact (Hh e p' Hb) | exact Hb].
Qed.

Lemma await_rule (ok : A -> Process -> Prop) (ko : Process -> Prop) (m : Async A) (p : Process) :
  (forall p', world p' = fst (m (world p)) ->
     match snd (m (world p)) with
     | inl _ => ko p'
     | inr a => ok a p'
     end) ->
  outcome ok ko (await m p).
Proof.
  unfold await, outcome. intros H.
  specialize (H {| world := fst (m (world p)); console := console p |} eq_refl).
  destruct (m (world p)) as [w' [e | a]]; exact H.
Qed.

Lemma log_then_rule (ok : B -> Process -> Prop) (ko : Process -> Prop)
    (args : list JsValue) (k : unit -> Script B) (p : Process) :
  (forall p', world p' = world p -> outcome ok ko (k tt p')) ->
  outcome ok ko (and_then (console_log args) k p).
Proof. intros H. apply H. reflexivity. Qed.

Lemma read_then_rule (ok : B -> Process -> Prop) (ko : Process -> Prop)
    (v : JsValue) (name : string) (k : JsValue -> Script B) (p : Process) :
  match get_prop v name with
  | inl _ => ko p
  | inr x => outcome ok ko (k x p)
  end ->
  outcome ok ko (and_then (read v name) k p).
Proof. unfold and_then, read, outcome. destruct (get_prop v name); auto. Qed.

End ScriptRules.

Lemma log_rule (ok : unit -> Process -> Prop) (ko : Process -> Prop)
    (args : list JsValue) (p : Process) :
  (forall p', world p' = world p -> ok tt p') -> outcome ok ko (console_log args p).
Proof. intros H. apply H. reflexivity. Qed.

Section MainSteps.

Variable server : list Request -> Request -> Reply.

Lemma main_agent_client (w : World) : this w = main_agent -> client (this w) = Some main_client.
Proof. intros ->. reflexivity. Qed.

Lemma healthCheck_of_main (w : World) :
  this w = main_agent ->
  fst (healthCheck server w) =
    {| this := this w;
       wire := (wire w ++ [request main_client GET "/api/health" NoBody DefaultHeaders])%list |}.
Proof.
  intros Ht. unfold healthCheck, bind.
  rewrite (client_get_sends server w main_client _ (main_agent_client w Ht)).
  destruct (settle _); reflexivity.
Qed.

Lemma getTables_of_main (w : World) :
  this w = main_agent ->
  fst (getTables server w) =
    {| this := this w;
       wire := (wire w ++ [request main_client GET "/api/tables" NoBody DefaultHeaders])%list |}.
Proof.
  intros Ht. unfold getTables, bind.
  rewrite (client_get_sends server w main_client _ (main_agent_client w Ht)).
  destruct (settle _); reflexivity.
Qed.

Lemma query_of_main (w : World) :
  this w = main_agent ->
  fst (query server (JStr "SHOW DATABASES") w) =
    {| this := this w;
       wire := (wire w ++
                [request main_client POST "/api/execute"
                   (Json (JObj [("action", JStr "query");
                                ("params", JObj [("sql", JStr "SHOW DATABASES")])]))
                   DefaultHeaders])%list |}.
Proof.
  intros Ht. unfold query, bind.
  rewrite (client_post_sends server w main_client _ _ _ (main_agent_client w Ht)) by reflexivity.
  destruct (settle _); reflexivity.
Qed.

Lemma ask_of_main (q : string) (w : World) :
  this w = main_agent ->
  fst (ask server (JStr q) JUndefined JUndefined w) =
    {| this := this w; wire := (wire w ++ [main_ask q])%list |}.
Proof.
  intros Ht. unfold ask, bind, this_apiKey. rewrite Ht.
  cbn [apiKey default_param js_or truthy String.eqb negb set_prop Ascii.eqb Bool.eqb].
  rewrite (client_post_sends server w main_client) by (try rewrite Ht; reflexivity).
  rewrite Ht. destruct (settle _); reflexivity.
Qed.

Lemma main_sent_step (net : list Request) (n : nat) (w w' : World) (r : Request) :
  main_sent net n w ->
  nth_error main_requests n = Some r ->
  w' = {| this := this w; wire := (wire w ++ [r])%list |} ->
  main_sent net (S n) w'.
Proof.
  intros [Ht Hw] Hr ->. split; [exact Ht |]. cbn [wire]. rewrite Hw, <- app_assoc. f_equal.
  do 5 (destruct n as [| n]; [injection Hr as <-; reflexivity |]).
  destruct n; discriminate Hr.
Qed.

End MainSteps.

Lemma error_then_rule {B : Type} (ok : B -> Process -> Prop) (ko : Process -> Prop)
    (args : list JsValue) (k : unit -> Script B) (p : Process) :
  (forall p', world p' = world p -> outcome ok ko (k tt p')) ->
  outcome ok ko (and_then (console_error args) k p).
Proof. intros H. apply H. reflexivity. Qed.

(** One [console.log] on the way: the world stays, and so does [H]. *)
Ltac log_step H :=
  apply log_then_rule;
  let p' := fresh "p" in
  let E := fresh "E" in
  intros p' E; rewrite <- E in H; clear E.

(** One awaited call of main's agent: [H] says [n] requests are out, the
    lemma [L] what the call adds, and [H'] will say [S n] are out. *)
Ltac await_step H L H' :=
  apply await_rule;
  let p' := fresh "p" in
  let E := fresh "E" in
  intros p' E;
  rewrite (L _ (proj1 H)) in E;
  pose proof (main_sent_step _ _ _ _ _ H eq_refl E) as H'.

(** One question of main's loop: the request goes out, and whatever comes
    back, the block itself fulfils. *)
Ltac question_step server H q :=
  match type of H with
  | main_sent ?net ?n _ =>
      log_step H;
      apply (try_catch_rule (fun p' => main_sent net (S n) (world p')));
      [ apply (and_then_rule (fun _ p' => main_sent net (S n) (world p')));
        [ let H' := fresh "H" in
          await_step H (ask_of_main server q) H';
          destruct (snd (ask server _ _ _ _)); exact H'
        | let H' := fresh "H" in
          let result := fresh "result" in
          clear H; intros result ? H';
          apply read_then_rule; destruct (get_prop result "sql"); [exact H' |];
          log_step H';
          apply read_then_rule; destruct (get_prop result "data"); [exact H' |];
          log_step H';
          apply read_then_rule; destruct (get_prop result "count"); [exact H' |];
          apply log_rule; let E := fresh "E" in intros ? E; rewrite E; exact H' ]
      | let H' := fresh "H" in
        let E := fresh "E" in
        intros ? ? H'; apply log_rule; intros ? E; rewrite E; exact H' ]
  end.

Section MainRun.

Variable server : list Request -> Request -> Reply.

(** Where [main] can stop: after the health check when it is rejected,
    after the table list when that call is rejected, and otherwise after
    all five requests.  It never rejects itself. *)
Lemma main_outcome (p : Process) :
  outcome
    (fun _ p' =>
       exists n,
         main_sent (wire (world p)) n (world p') /\
         ((n = 1%nat /\
           exists w e, main_sent (wire (world p)) 0 w /\ snd (healthCheck server w) = inl e) \/
          (n = 2%nat /\
           exists w e, main_sent (wire (world p)) 1 w /\ snd (getTables server w) = inl e) \/
          n = 5%nat))
    (fun _ => False)
    (main server p).
Proof.
  set (net := wire (world p)).
  set (stop := fun p' : Process =>
         exists n,
           main_sent net n (world p') /\
           ((n = 1%nat /\
             exists w e, main_sent net 0 w /\ snd (healthCheck server w) = inl e) \/
            (n = 2%nat /\
             exists w e, main_sent net 1 w /\ snd (getTables server w) = inl e) \/
            n = 5%nat)).
  change (outcome (fun _ p' => stop p') (fun _ => False) (main server p)).
  unfold main.
  apply (and_then_rule (fun _ p' => main_sent net 0 (world p'))).
  { unfold new_agent, new_DorisAgent. rewrite constructor_runs. cbn.
    split; [reflexivity | symmetry; apply app_nil_r]. }
  intros _ p0 H0.
  do 3 log_step H0.
  apply (try_catch_rule stop).
  2:{ intros e q Hq. apply error_then_rule. intros q' E.
      assert (Hq' : stop q') by (unfold stop in *; rewrite E; exact Hq).
      unfold error_response. destruct (err_kind e); exact Hq'. }
  log_step H0.
  (* 1. the health check *)
  apply (and_then_rule (fun _ p' => main_sent net 1 (world p'))).
  { await_step H0 (healthCheck_of_main server) H1.
    destruct (snd (healthCheck server _)) as [e | v] eqn:Eh; [| exact H1].
    exists 1%nat. split; [exact H1 |]. left. split; [reflexivity |].
    eexists. exists e. split; [exact H0 | exact Eh]. }
  clear H0. intros health ? H1.
  do 2 log_step H1.
  (* 2. the tables *)
  apply (and_then_rule (fun _ p' => main_sent net 2 (world p'))).
  { await_step H1 (getTables_of_main server) H2.
    destruct (snd (getTables server _)) as [e | v] eqn:Et; [| exact H2].
    exists 2%nat. split; [exact H2 |]. right. left. split; [reflexivity |].
    eexists. exists e. split; [exact H1 | exact Et]. }
  clear H1. intros tables ? H2.
  do 2 log_step H2.
  cbn [for_of].
  (* 3. the questions: a rejected or unreadable answer is caught *)
  apply (and_then_rule (fun _ p' => main_sent net 4 (world p'))).
  { apply (and_then_rule (fun _ p' => main_sent net 3 (world p'))).
    { question_step server H2 "有哪些表?". }
    clear H2. intros _ ? H3.
    apply (and_then_rule (fun _ p' => main_sent net 4 (world p'))).
    { question_step server H3 "统计每个表的记录数". }
    intros _ ? H4. exact H4. }
  clear H2. intros _ ? H4.
  log_step H4.
  (* 4. the query *)
  assert (Hstop : forall q, main_sent net 5 (world q) -> stop q).
  { intros q Hq. exists 5%nat. split; [exact Hq | right; right; reflexivity]. }
  apply (and_then_rule (fun _ p' => main_sent net 5 (world p'))).
  { await_step H4 (query_of_main server) H5.
    destruct (snd (query server _ _)); [apply Hstop |]; exact H5. }
  clear H4. intros result ? H5.
  apply read_then_rule. destruct (get_prop result "data"); [exact (Hstop _ H5) |].
  do 6 log_step H5.
  apply log_rule. intros ? E. apply Hstop. rewrite E. exact H5.
Qed.

Lemma healthCheck_runs (w : World) (c : AxiosInstance) :
  client (this w) = Some c ->
  healthCheck server w =
    ({| this := this w;
        wire := (wire w ++ [request c GET "/api/health" NoBody DefaultHeaders])%list |},
     match settle (server (wire w) (request c GET "/api/health" NoBody DefaultHeaders)) with
     | inl e => inl e
     | inr response => inr (data response)
     end).
Proof.
  intros Hc. unfold healthCheck, bind. rewrite (client_get_sends server w c _ Hc).
  destruct (settle _); reflexivity.
Qed.

Lemma getTables_runs (w : World) (c : AxiosInstance) :
  client (this w) = Some c ->
  getTables server w =
    ({| this := this w;
        wire := (wire w ++ [request c GET "/api/tables" NoBody DefaultHeaders])%list |},
     match settle (server (wire w) (request c GET "/api/tables" NoBody DefaultHeaders)) with
     | inl e => inl e
     | inr response => get_prop (data response) "tables"
     end).
Proof.
  intros Hc. unfold getTables, bind, lift. rewrite (client_get_sends server w c _ Hc).
  destruct (settle _); reflexivity.
Qed.

(** X14: [main] never rejects: whatever the gateway does, every failure
    ends in one of its two [catch] blocks. *)
Theorem main_never_rejects (p : Process) : snd (main server p) = inr tt.
Proof.
  pose proof (main_outcome p) as H.
  destruct (main server p) as [p' [e | []]]; [destruct H | reflexivity].
Qed.

(** X15: [main] sends its five requests in a fixed order and with fixed
    contents, and stops early only after the first or the second: the wire
    gains the first one, two or five of them. *)
Theorem main_sends_one_two_or_five (p : Process) :
  exists n,
    wire (world (fst (main server p))) = (wire (world p) ++ firstn n main_requests)%list /\
    (n = 1 \/ n = 2 \/ n = 5)%nat.
Proof.
  pose proof (main_outcome p) as H.
  destruct (main server p) as [p' [e | []]]; [destruct H |].
  destruct H as (n & [_ Hw] & Hn). exists n. split; [exact Hw |].
  destruct Hn as [[-> _] | [[-> _] | ->]]; auto.
Qed.

(** X16: once the health check and the table list have answered, nothing a
    question runs into stops [main]: all five requests go out, the two
    questions and the SQL query included. *)
Theorem main_questions_never_stop_the_run (p : Process) (up listed : Response) :
  settle (server (wire (world p)) (request main_client GET "/api/health" NoBody DefaultHeaders))
    = inr up ->
  settle (server (wire (world p) ++ [request main_client GET "/api/health" NoBody DefaultHeaders])
            (request main_client GET "/api/tables" NoBody DefaultHeaders))
    = inr listed ->
  data listed <> JNull ->
  data listed <> JUndefined ->
  wire (world (fst (main server p))) = (wire (world p) ++ main_requests)%list.
Proof.
  intros Hup Hlisted Hnull Hundef.
  pose proof (main_outcome p) as H.
  destruct (main server p) as [p' [e | []]]; [destruct H |].
  destruct H as (n & [_ Hw] & [[_ (w & e & [Ht Hn] & He)] | [[_ (w & e & [Ht Hn] & He)] | ->]]).
  - exfalso. rewrite (healthCheck_runs w main_client) in He by (rewrite Ht; reflexivity).
    cbn [firstn] in Hn. rewrite app_nil_r in Hn. rewrite Hn, Hup in He. discriminate He.
  - exfalso. rewrite (getTables_runs w main_client) in He by (rewrite Ht; reflexivity).
    rewrite Hn in He. cbn [firstn main_requests] in He. rewrite Hlisted in He.
    cbn [snd] in He.
    destruct (data listed) eqn:Ed; cbn [get_prop] in He; try discriminate He; try contradiction.
    destruct (lookup _ _); discriminate He.
  - exact Hw.
Qed.

(** X17: when the health check is rejected, [main] sends nothing else and
    reports on stderr: the message of the error, and for a reply outside
    2xx the body the gateway sent with it. *)
Theorem main_reports_failed_health_check (p : Process) (e : JsError) :
  settle (server (wire (world p)) (request main_client GET "/api/health" NoBody DefaultHeaders))
    = inl e ->
  wire (world (fst (main server p))) =
    (wire (world p) ++ [request main_client GET "/api/health" NoBody DefaultHeaders])%list /\
  console (fst (main server p)) =
    (console p ++
     [{| log_stream := Stdout; log_args := [JStr (repeat_string "=" 60)] |};
      {| log_stream := Stdout; log_args := [JStr "Doris Agent 示例 (Node.js)"] |};
      {| log_stream := Stdout; log_args := [JStr (repeat_string "=" 60)] |};
      {| log_stream := Stdout; log_args := [JStr (nl ++ "1. 健康检查...")] |};
      {| log_stream := Stderr; log_args := [JStr "❌ 错误:"; JStr (err_message e)] |}] ++
     match err_kind e with
     | BadStatus _ body => [{| log_stream := Stderr; log_args := [JStr "详细信息:"; body] |}]
     | _ => []
     end)%list.
Proof.
  intros He.
  unfold main, and_then, try_catch, console_log, console_error, new_agent, new_DorisAgent, await.
  rewrite constructor_runs.
  cbn [replace default_param fst snd world console this wire].
  change (replace_slash_end "http://localhost:8018") with "http://localhost:8018".
  change (axios_create (JStr "http://localhost:8018") 60000) with main_client.
  fold main_agent.
  rewrite (healthCheck_runs {| this := main_agent; wire := wire (world p) |} main_client eq_refl).
  cbn [wire this]. rewrite He.
  cbn [world console wire].
  unfold error_response, error_message, read, done.
  destruct (err_kind e); cbn [truthy get_prop lookup String.eqb Ascii.eqb Bool.eqb world console wire];
    (split; [reflexivity |]); rewrite <- !app_assoc; reflexivity.
Qed.

End MainRun.

(** ** The further theorems at work *)

Import Sample.

Lemma success_body_returned_unchanged_query :
  returns_data (Query (JStr "SHOW DATABASES")) = true /\
  200 <= 200 < 300 /\
  snd (invoke ok_server open_any (Query (JStr "SHOW DATABASES")) keyless) =
    inr (JObj [("success", JBool true)]).
Proof.
  assert (Hst : 200 <= 200 < 300) by lia.
  split; [reflexivity |]. split; [exact Hst |].
  exact (success_body_returned_unchanged ok_server open_any (Query (JStr "SHOW DATABASES"))
           keyless _ 200 _ eq_refl eq_refl eq_refl Hst).
Defined.

Lemma present_field_is_returned_institutions :
  client (this keyless) = Some local_client /\
  200 <= 200 < 300 /\
  snd (getTables tables_server keyless) = inr (JArr [JStr "institutions"]) /\
  snd (getTableSchema tables_server (JStr "institutions") keyless) =
    inr (JArr [JObj [("Field", JStr "id"); ("Type", JStr "INT")]]).
Proof.
  assert (Hst : 200 <= 200 < 300) by lia.
  split; [reflexivity |]. split; [exact Hst |].
  split.
  - exact (proj1 (present_field_is_returned tables_server keyless local_client 200 _
                    (JStr "institutions") _ eq_refl Hst) eq_refl eq_refl).
  - exact (proj2 (present_field_is_returned tables_server keyless local_client 200 _
                    (JStr "institutions") _ eq_refl Hst) eq_refl eq_refl).
Defined.

Lemma requests_carry_constructed_config_health :
  exists a r,
    new_DorisAgent (JStr "http://localhost:8018/") JUndefined [] = ([], inr a) /\
    wire (fst (invoke ok_server open_any HealthCheck {| this := a; wire := [] |})) = [r] /\
    req_baseURL r = JStr "http://localhost:8018" /\ req_timeout r = 60000.
Proof.
  eexists. eexists. split; [reflexivity |]. split; [reflexivity |].
  exact (requests_carry_constructed_config ok_server open_any (JStr "http://localhost:8018/")
           JUndefined [] [] _ HealthCheck _ eq_refl eq_refl).
Defined.

Lemma previewExcel_posts_two_parts_five_rows :
  client (this keyless) = Some local_client /\
  open_any (JStr "data.xlsx") = inr {| stream_path := "data.xlsx"; stream_error := None |} /\
  safe_integer 5 = true /\
  wire (fst (previewExcel ok_server open_any (JStr "data.xlsx") (JNum 5) keyless)) =
    [request local_client POST "/api/upload/preview"
       (Multipart [("file", FormStream {| stream_path := "data.xlsx"; stream_error := None |});
                   ("rows", FormField (JStr "5"))])
       FormHeaders] /\
  wire (fst (previewExcel ok_server open_any (JStr "data.xlsx") JUndefined keyless)) =
    [request local_client POST "/api/upload/preview"
       (Multipart [("file", FormStream {| stream_path := "data.xlsx"; stream_error := None |});
                   ("rows", FormField (JStr "10"))])
       FormHeaders].
Proof.
  split; [reflexivity |]. split; [reflexivity |]. split; [reflexivity |].
  exact (previewExcel_posts_two_parts ok_server open_any "data.xlsx" 5 keyless local_client
           {| stream_path := "data.xlsx"; stream_error := None |}
           eq_refl eq_refl eq_refl eq_refl).
Defined.

Lemma null_flag_throws_before_sending_data_xlsx :
  open_any (JStr "data.xlsx") = inr {| stream_path := "data.xlsx"; stream_error := None |} /\
  uploadExcel ok_server open_any (JStr "data.xlsx") (JStr "my_table") JNull keyless =
    (keyless, inl (mkError TypeError "Cannot read properties of null (reading 'toString')")) /\
  previewExcel ok_server open_any (JStr "data.xlsx") JNull keyless =
    (keyless, inl (mkError TypeError "Cannot read properties of null (reading 'toString')")).
Proof.
  split; [reflexivity |].
  exact (null_flag_throws_before_sending ok_server open_any (JStr "data.xlsx") "my_table"
           keyless {| stream_path := "data.xlsx"; stream_error := None |} eq_refl).
Defined.

Lemma unreadable_file_is_never_sent_number_path :
  open_any (JNum 5) = inl (mkError TypeError "The path argument must be of type string") /\
  uploadExcel ok_server open_any (JNum 5) (JStr "my_table") JUndefined keyless =
    (keyless, inl (mkError TypeError "The path argument must be of type string")) /\
  previewExcel ok_server open_any (JNum 5) JUndefined keyless =
    (keyless, inl (mkError TypeError "The path argument must be of type string")).
Proof.
  split; [reflexivity |].
  exact (unreadable_file_is_never_sent ok_server open_any (JNum 5) (JStr "my_table") JUndefined
           JUndefined keyless _ eq_refl).
Defined.

Lemma reads_send_get_without_body_institutions :
  client (this keyless) = Some local_client /\
  plain_name "institutions" = true /\
  wire (fst (healthCheck ok_server keyless)) =
    [request local_client GET "/api/health" NoBody DefaultHeaders] /\
  wire (fst (getTables ok_server keyless)) =
    [request local_client GET "/api/tables" NoBody DefaultHeaders] /\
  wire (fst (getTableSchema ok_server (JStr "institutions") keyless)) =
    [request local_client GET "/api/tables/institutions/schema" NoBody DefaultHeaders].
Proof.
  split; [reflexivity |]. split; [reflexivity |].
  exact (reads_send_get_without_body ok_server "institutions" keyless local_client
           eq_refl eq_refl).
Defined.

Lemma ask_payload_names_keyed :
  client (this keyed) = Some local_client /\
  exists fields,
    wire (fst (ask ok_server (JStr "q") JUndefined JUndefined keyed)) =
      [request local_client POST "/api/query/natural" (Json (JObj fields)) DefaultHeaders] /\
    map fst fields = ["query"; "api_key"; "model"].
Proof.
  split; [reflexivity |].
  exact (ask_payload_names ok_server (JStr "q") JUndefined JUndefined keyed local_client eq_refl).
Defined.

Lemma ask_sends_given_model_gpt4 :
  client (this keyed) = Some local_client /\
  (truthy JUndefined || truthy (apiKey (this keyed)))%bool = true /\
  JStr "gpt-4" <> JUndefined /\
  exists fields,
    wire (fst (ask ok_server (JStr "q") JUndefined (JStr "gpt-4") keyed)) =
      [request local_client POST "/api/query/natural" (Json (JObj fields)) DefaultHeaders] /\
    lookup "model" fields = Some (JStr "gpt-4").
Proof.
  assert (Hm : JStr "gpt-4" <> JUndefined) by discriminate.
  split; [reflexivity |]. split; [reflexivity |]. split; [exact Hm |].
  exact (ask_sends_given_model ok_server (JStr "q") JUndefined (JStr "gpt-4") keyed local_client
           eq_refl eq_refl Hm).
Defined.

(** Against a gateway that answers everything with [200 {"success": true}],
    [main] sends all five requests. *)
Lemma main_questions_never_stop_the_run_ok_server :
  settle (ok_server [] (request main_client GET "/api/health" NoBody DefaultHeaders))
    = inr {| status := 200; data := JObj [("success", JBool true)] |} /\
  wire (world (fst (main ok_server boot))) = main_requests.
Proof.
  assert (Hnull : JObj [("success", JBool true)] <> JNull) by discriminate.
  assert (Hundef : JObj [("success", JBool true)] <> JUndefined) by discriminate.
  split; [reflexivity |].
  exact (main_questions_never_stop_the_run ok_server boot
           {| status := 200; data := JObj [("success", JBool true)] |}
           {| status := 200; data := JObj [("success", JBool true)] |}
           eq_refl eq_refl Hnull Hundef).
Defined.

(** Against a gateway that answers 404, [main] stops after the health check
    and prints the message and the body of the reply. *)
Lemma main_reports_failed_health_check_404 :
  wire (world (fst (main ghost_server boot))) =
    [request main_client GET "/api/health" NoBody DefaultHeaders] /\
  map log_args (filter (fun l => match log_stream l with Stderr => true | Stdout => false end)
                  (console (fst (main ghost_server boot)))) =
    [[JStr "❌ 错误:"; JStr "Request failed with status code 404"];
     [JStr "详细信息:"; JObj [("detail", JObj [("error", JStr "table not found")])]]].
Proof.
  destruct (main_reports_failed_health_check ghost_server boot _ eq_refl) as [Hw Hc].
  split; [exact Hw |]. rewrite Hc. reflexivity.
Defined.
